(** * gmail-mcp: the tool server of [src/gmail_mcp/server.py]

    A shallow embedding of the server's four Gmail tools, of the session
    acquisition that precedes every tool call, and of the two codecs the
    handlers rely on (URL-safe base64 and UTF-8).

    Conventions.
    - A Python [str] is a list of code points ([str := list N]); [bytes]
      is a list of octets, also [list N].  [lit] turns a literal of the
      source into a [str].
    - A Python exception is a constructor of [exn]; a call that may raise
      returns a [result].
    - Effects (file-system probes, credential round trips, mail-service
      calls) are recorded, in program order, in the [trace] of the state
      that the monad [M] threads through a call.
    - The Gmail service, the OAuth endpoints and the process environment
      are the [World] the program runs in, as is whether the token file
      can be opened and written; the serialiser of the [email] package is
      a parameter of the program section, and what it writes for a plain
      message is described in [Email]. *)

From Stdlib Require Import ZArith NArith List String Ascii Lia.
From stdpp Require Import base option list gmap strings.

Set Default Proof Using "Type".

(** ** Strings and exceptions *)

Definition str := list N.
Definition bytes := list N.

Definition lit (s : string) : str := N_of_ascii <$> list_ascii_of_string s.

(** ["sep".join(xs)] *)
Fixpoint join (sep : str) (xs : list str) : str :=
  match xs with
  | [] => []
  | [x] => x
  | x :: rest => x ++ sep ++ join sep rest
  end.

Inductive exn : Type :=
  | FileNotFoundError (msg : str)
  | ValueError (msg : str)
  | KeyError (key : str)
  | AttributeError
  | BinasciiError
  | UnicodeDecodeError
  | UnicodeEncodeError
  | RefreshError
  | HttpError (status : N)
  | LibraryError.

Inductive result (A : Type) : Type :=
  | Ok (a : A)
  | Raise (e : exn).
Arguments Ok {A} a.
Arguments Raise {A} e.

Definition result_map {A B} (f : A -> B) (r : result A) : result B :=
  match r with
  | Ok a => Ok (f a)
  | Raise e => Raise e
  end.

Definition result_bind {A B} (r : result A) (f : A -> result B) : result B :=
  match r with
  | Ok a => f a
  | Raise e => Raise e
  end.

(** ** URL-safe base64 ([base64.urlsafe_b64encode], [base64.urlsafe_b64decode]) *)

Module Base64.
Local Open Scope N_scope.

Definition table_b2a_base64 : str :=
  lit "ABCDEFGHIJKLMNOPQRSTUVWXYZabcdefghijklmnopqrstuvwxyz0123456789+/".

Definition BASE64_PAD : N := 61.

Definition b2a (sextet : N) : N := nth (N.to_nat sextet) table_b2a_base64 0.

(** The inverse table: the value of an alphabet character, [None] for any
    other character. *)
Definition a2b (ch : N) : option N :=
  if (65 <=? ch) && (ch <=? 90) then Some (ch - 65)
  else if (97 <=? ch) && (ch <=? 122) then Some (ch - 97 + 26)
  else if (48 <=? ch) && (ch <=? 57) then Some (ch - 48 + 52)
  else if ch =? 43 then Some 62
  else if ch =? 47 then Some 63
  else None.

(** [binascii.b2a_base64(data, newline=False)]: three octets give four
    characters, a tail of one or two octets is padded with ['=']. *)
Fixpoint b2a_base64 (bin : bytes) : str :=
  match bin with
  | [] => []
  | [b0] =>
      [b2a (N.shiftr b0 2); b2a (N.shiftl (N.land b0 3) 4); BASE64_PAD; BASE64_PAD]
  | [b0; b1] =>
      [b2a (N.shiftr b0 2);
       b2a (N.lor (N.shiftl (N.land b0 3) 4) (N.shiftr b1 4));
       b2a (N.shiftl (N.land b1 15) 2);
       BASE64_PAD]
  | b0 :: b1 :: b2 :: rest =>
      b2a (N.shiftr b0 2)
      :: b2a (N.lor (N.shiftl (N.land b0 3) 4) (N.shiftr b1 4))
      :: b2a (N.lor (N.shiftl (N.land b1 15) 2) (N.shiftr b2 6))
      :: b2a (N.land b2 63)
      :: b2a_base64 rest
  end.

(** [binascii.a2b_base64(data)] with [strict_mode] off: characters outside
    the alphabet are skipped, a sufficient pad sequence ends the input, and
    an incomplete quad is an error.  [out] is accumulated in reverse. *)
Fixpoint a2b_loop (ascii : str) (quad_pos leftchar pads : N) (out : bytes)
  : result bytes :=
  match ascii with
  | [] => if quad_pos =? 0 then Ok (rev out) else Raise BinasciiError
  | this_ch :: rest =>
      if this_ch =? BASE64_PAD then
        if (2 <=? quad_pos) && (4 <=? quad_pos + (pads + 1)) then Ok (rev out)
        else a2b_loop rest quad_pos leftchar
               (if 2 <=? quad_pos then pads + 1 else pads) out
      else
        match a2b this_ch with
        | None => a2b_loop rest quad_pos leftchar pads out
        | Some v =>
            if quad_pos =? 0 then a2b_loop rest 1 v 0 out
            else if quad_pos =? 1 then
              a2b_loop rest 2 (N.land v 15) 0
                (N.lor (N.shiftl leftchar 2) (N.shiftr v 4) :: out)
            else if quad_pos =? 2 then
              a2b_loop rest 3 (N.land v 3) 0
                (N.lor (N.shiftl leftchar 4) (N.shiftr v 2) :: out)
            else
              a2b_loop rest 0 0 0 (N.lor (N.shiftl leftchar 6) v :: out)
        end
  end.

Definition a2b_base64 (ascii : str) : result bytes := a2b_loop ascii 0 0 0 [].

(** [bytes.maketrans(b'+/', b'-_')] and its inverse. *)
Definition urlsafe_encode_translation (ch : N) : N :=
  if ch =? 43 then 45 else if ch =? 47 then 95 else ch.

Definition urlsafe_decode_translation (ch : N) : N :=
  if ch =? 45 then 43 else if ch =? 95 then 47 else ch.

(** [base64.urlsafe_b64encode(s)]; the result is ASCII, so the bytes are
    also the code points of [.decode("utf-8")]. *)
Definition urlsafe_b64encode (s : bytes) : str :=
  urlsafe_encode_translation <$> b2a_base64 s.

(** [base64.urlsafe_b64decode(s)] for a [str] argument: the string is first
    encoded as ASCII, which raises [ValueError] on any other character. *)
Definition urlsafe_b64decode (s : str) : result bytes :=
  if forallb (fun ch => ch <? 128) s
  then a2b_base64 (urlsafe_decode_translation <$> s)
  else Raise (ValueError (lit "string argument should contain only ASCII characters")).

(** An element of a [bytes] object. *)
Definition octet (b : N) : Prop := b < 256.

(** The character a sextet is sent as, as the decoder then reads it. *)
Definition wire (v : N) : N :=
  urlsafe_decode_translation (urlsafe_encode_translation (b2a v)).

End Base64.

(** ** UTF-8 ([bytes.decode("utf-8")], [str.encode("utf-8")]) *)

Module Utf8.
Local Open Scope N_scope.

(** A code point a [str] can be encoded from: any but a surrogate. *)
Definition scalar (c : N) : Prop := c < 55296 \/ (57344 <= c /\ c < 1114112).

Definition is_scalar (c : N) : bool := (c <? 55296) || ((57344 <=? c) && (c <? 1114112)).

Definition continuation (b : N) : bool := (128 <=? b) && (b <=? 191).

Definition encode_code_point (c : N) : result bytes :=
  if c <? 128 then Ok [c]
  else if c <? 2048 then
    Ok [N.lor 192 (N.shiftr c 6); N.lor 128 (N.land c 63)]
  else if c <? 65536 then
    if (55296 <=? c) && (c <=? 57343) then Raise UnicodeEncodeError
    else Ok [N.lor 224 (N.shiftr c 12);
             N.lor 128 (N.land (N.shiftr c 6) 63);
             N.lor 128 (N.land c 63)]
  else if c <? 1114112 then
    Ok [N.lor 240 (N.shiftr c 18);
        N.lor 128 (N.land (N.shiftr c 12) 63);
        N.lor 128 (N.land (N.shiftr c 6) 63);
        N.lor 128 (N.land c 63)]
  else Raise UnicodeEncodeError.

Fixpoint encode (s : str) : result bytes :=
  match s with
  | [] => Ok []
  | c :: rest =>
      result_bind (encode_code_point c) (fun bs =>
      result_map (app bs) (encode rest))
  end.

(** The strict decoder: shortest forms only, no surrogates, nothing above
    U+10FFFF, no truncated sequence. *)
Fixpoint decode (bs : bytes) : result str :=
  match bs with
  | [] => Ok []
  | b0 :: t0 =>
      if b0 <? 128 then result_map (cons b0) (decode t0)
      else if (194 <=? b0) && (b0 <=? 223) then
        match t0 with
        | b1 :: t1 =>
            if continuation b1 then
              result_map
                (cons (N.lor (N.shiftl (N.land b0 31) 6) (N.land b1 63)))
                (decode t1)
            else Raise UnicodeDecodeError
        | _ => Raise UnicodeDecodeError
        end
      else if (224 <=? b0) && (b0 <=? 239) then
        match t0 with
        | b1 :: b2 :: t2 =>
            if ((if b0 =? 224 then 160 else 128) <=? b1)
               && (b1 <=? (if b0 =? 237 then 159 else 191))
               && continuation b2 then
              result_map
                (cons (N.lor (N.shiftl (N.land b0 15) 12)
                         (N.lor (N.shiftl (N.land b1 63) 6) (N.land b2 63))))
                (decode t2)
            else Raise UnicodeDecodeError
        | _ => Raise UnicodeDecodeError
        end
      else if (240 <=? b0) && (b0 <=? 244) then
        match t0 with
        | b1 :: b2 :: b3 :: t3 =>
            if ((if b0 =? 240 then 144 else 128) <=? b1)
               && (b1 <=? (if b0 =? 244 then 143 else 191))
               && continuation b2 && continuation b3 then
              result_map
                (cons (N.lor (N.shiftl (N.land b0 7) 18)
                         (N.lor (N.shiftl (N.land b1 63) 12)
                            (N.lor (N.shiftl (N.land b2 63) 6) (N.land b3 63)))))
                (decode t3)
            else Raise UnicodeDecodeError
        | _ => Raise UnicodeDecodeError
        end
      else Raise UnicodeDecodeError
  end.

End Utf8.

(** ** Values exchanged with the caller and with the Gmail service *)

(** A value of an [arguments] mapping ([dict[str, Any]], decoded JSON). *)
#[local] Unset Elimination Schemes.
Inductive pyval : Type :=
  | PyNone
  | PyBool (b : bool)
  | PyInt (n : Z)
  | PyStr (s : str)
  | PyList (l : list pyval)
  | PyDict (d : list (str * pyval)).
#[local] Set Elimination Schemes.

(** [mcp.types.TextContent] *)
Record TextContent := mkTextContent { tc_type : str; text : str }.

(** [mcp.types.Tool] and its JSON-schema [inputSchema].  [required] is
    [None] where the schema has no such key. *)
Record Property := mkProperty {
  prop_type : str;
  prop_description : str;
  prop_default : option pyval }.

Record InputSchema := mkInputSchema {
  schema_type : str;
  properties : list (str * Property);
  required : option (list str) }.

Record Tool := mkTool {
  name : str;
  description : str;
  inputSchema : InputSchema }.

(** Resources of the Gmail API as the handlers read them.  A key the code
    probes with [in] or reads with [.get] is an [option]; a key the code
    only subscripts is a plain field, except [body] and [data], which the
    same handler probes on one path and subscripts on the other. *)
Record Header := mkHeader { header_name : str; header_value : str }.

Record MessagePartBody := mkBody { data : option str }.

#[local] Unset Elimination Schemes.
Inductive MessagePart : Type :=
  mkPart (mimeType : str) (headers : list Header)
         (body : option MessagePartBody) (parts : option (list MessagePart)).
#[local] Set Elimination Schemes.

Definition mimeType (p : MessagePart) : str :=
  let 'mkPart m _ _ _ := p in m.
Definition headers (p : MessagePart) : list Header :=
  let 'mkPart _ h _ _ := p in h.
Definition body (p : MessagePart) : option MessagePartBody :=
  let 'mkPart _ _ b _ := p in b.
Definition parts (p : MessagePart) : option (list MessagePart) :=
  let 'mkPart _ _ _ ps := p in ps.

Record Message := mkMessage { msg_id : str; payload : MessagePart }.

(** An element of [results["messages"]]. *)
Record MessageRef := mkMessageRef { ref_id : str }.

Record ListMessagesResponse := mkListMessages { messages : option (list MessageRef) }.

Record Label := mkLabel { label_id : str; label_name : str }.

Record ListLabelsResponse := mkListLabels { labels : option (list Label) }.

(** The response of [messages().send]. *)
Record SentMessage := mkSent { sent_id : str }.

(** [google.oauth2.credentials.Credentials], as far as the code looks. *)
Record Credentials := mkCredentials {
  token : option str;
  expired : bool;
  refresh_token : option str }.

(** [creds.valid] *)
Definition valid (c : Credentials) : bool :=
  match token c with Some _ => negb (expired c) | None => false end.

(** Truth value of [creds.refresh_token] *)
Definition has_refresh_token (c : Credentials) : bool :=
  match refresh_token c with
  | Some (_ :: _) => true
  | _ => false
  end.

(** The object [build("gmail", "v1", credentials=creds)] returns. *)
Record Service := mkService { service_credentials : Credentials }.

(** [email.mime.text.MIMEText]: the text and the headers set on it, in
    order. *)
Record MIMEText := mkMIMEText {
  mime_text : str;
  mime_headers : list (str * pyval) }.

(** ** The world, the state and the monad *)

(** What a path of the file system holds. *)
Inductive File : Type :=
  | TokenFile (c : Credentials)
  | ClientSecretsFile
  | OtherFile.

(** The process environment, the answers of the remote parties, and whether
    a file can be opened for writing ([open(path, "w")]) and then written
    ([token.write]). *)
Record World := mkWorld {
  environ : gmap str str;
  refresh_grant : Credentials -> result Credentials;
  authorization_flow : result Credentials;
  messages_list : pyval -> pyval -> result ListMessagesResponse;
  messages_get : pyval -> str -> result Message;
  messages_send : str -> result SentMessage;
  labels_list : result ListLabelsResponse;
  open_for_writing : str -> result unit;
  file_write : str -> result unit }.

Inductive event : Type :=
  | PathExists (path : str)
  | ReadTokenFile (path : str)
  | Refresh
  | ReadClientSecrets (path : str)
  | RunLocalServer
  | WriteTokenFile (path : str)
  | Build
  | MessagesList (q max_results : pyval)
  | MessagesGet (id : pyval) (format : str)
  | MessagesSend (raw : str)
  | LabelsList.

(** A call on the mail service. *)
Definition is_mail_call (e : event) : bool :=
  match e with
  | MessagesList _ _ | MessagesGet _ _ | MessagesSend _ | LabelsList => true
  | _ => false
  end.

(** A round trip over the network: a mail call, a token refresh or the
    authorization-code exchange. *)
Definition is_network (e : event) : bool :=
  match e with
  | Refresh | RunLocalServer => true
  | _ => is_mail_call e
  end.

Record State := mkState {
  fs : gmap str File;
  trace : list event }.

Definition M (A : Type) : Type := State -> result A * State.

Definition ret {A} (a : A) : M A := fun s => (Ok a, s).

Definition raise {A} (e : exn) : M A := fun s => (Raise e, s).

Definition bind {A B} (m : M A) (k : A -> M B) : M B :=
  fun s =>
    match m s with
    | (Ok a, s') => k a s'
    | (Raise e, s') => (Raise e, s')
    end.

Notation "x <~ m ;; k" := (bind m (fun x => k))
  (at level 100, m at next level, right associativity).
Notation "m ;;; k" := (bind m (fun _ => k))
  (at level 100, right associativity).

Definition emit (e : event) : M unit :=
  fun s => (Ok tt, mkState (fs s) (trace s ++ [e])).

Definition lift {A} (r : result A) : M A := fun s => (r, s).

(** A result that depends on the state and leaves it as it is. *)
Definition read_state {A} (f : State -> result A) : M A := fun s => (f s, s).

(** A computation that adds to the trace only events satisfying [P]. *)
Definition emits_only (P : event -> bool) {A} (m : M A) : Prop :=
  forall s, exists evs, trace (snd (m s)) = trace s ++ evs /\ forallb P evs = true.

(** [for x in xs: output.append(f(x))] *)
Fixpoint for_each {A B} (f : A -> M B) (xs : list A) : M (list B) :=
  match xs with
  | [] => ret []
  | x :: rest =>
      y <~ f x ;;
      ys <~ for_each f rest ;;
      ret (y :: ys)
  end.

(** [d[key]] on a dict *)
Definition getitem {V} (d : gmap str V) (key : str) : M V :=
  match d !! key with
  | Some v => ret v
  | None => raise (KeyError key)
  end.

(** [d.get(key, default)] *)
Definition dict_get {V} (d : gmap str V) (key : str) (dflt : V) : V :=
  default dflt (d !! key).

(** [{h["name"]: h["value"] for h in hs}]: a later header of the same name
    replaces an earlier one. *)
Definition headers_dict (hs : list Header) : gmap str str :=
  foldl (fun d h => <[header_name h := header_value h]> d) ∅ hs.

Definition nl : str := [10%N].

(** ** The [email] package, on plain messages *)

(** What [message.as_bytes()] writes depends on the text and on the header
    values: a text outside ASCII is sent encoded, a long header line is
    folded, a value outside ASCII becomes an encoded word, and some values
    are refused.  Described here is the case where none of this happens:
    the message is written as it stands. *)
Module Email.
Local Open Scope N_scope.











End Email.

(** ** The program *)

Section Program.

Variable w : World.

(** [message.as_bytes()] of the [email] package. *)
Variable as_bytes : MIMEText -> result bytes.

Definition SCOPES : list str :=
  [ lit "https://www.googleapis.com/auth/gmail.readonly";
    lit "https://www.googleapis.com/auth/gmail.send";
    lit "https://www.googleapis.com/auth/gmail.modify" ].

(** *** Library calls with an effect *)

Definition os_environ_get (key dflt : str) : str := dict_get (environ w) key dflt.

Definition os_path_exists (path : str) : M bool :=
  fun s =>
    (Ok (match fs s !! path with Some _ => true | None => false end),
     mkState (fs s) (trace s ++ [PathExists path])).

(** [Credentials.from_authorized_user_file(path, SCOPES)]: the file content
    [TokenFile c] stands for what the reader makes of the file at the time
    of the call. *)
Definition from_authorized_user_file (path : str) : M Credentials :=
  emit (ReadTokenFile path) ;;;
  read_state (fun s =>
    match fs s !! path with
    | Some (TokenFile c) => Ok c
    | Some _ => Raise LibraryError
    | None => Raise (FileNotFoundError path)
    end).

(** [creds.refresh(Request())]: the credentials after the round trip. *)
Definition refresh (creds : Credentials) : M Credentials :=
  emit Refresh ;;; lift (refresh_grant w creds).

(** [InstalledAppFlow.from_client_secrets_file(path, SCOPES)] *)
Definition from_client_secrets_file (path : str) : M unit :=
  emit (ReadClientSecrets path) ;;;
  read_state (fun s =>
    match fs s !! path with
    | Some ClientSecretsFile => Ok tt
    | Some _ => Raise LibraryError
    | None => Raise (FileNotFoundError path)
    end).

(** [flow.run_local_server(port=0)] *)
Definition run_local_server : M Credentials :=
  emit RunLocalServer ;;; lift (authorization_flow w).

(** [with open(path, "w") as token: token.write(creds.to_json())]: when
    the file cannot be opened it is left alone; once it is open it has been
    truncated, so a write that fails leaves it without credentials. *)
Definition write_token (path : str) (creds : Credentials) : M unit :=
  emit (WriteTokenFile path) ;;;
  lift (open_for_writing w path) ;;;
  fun s =>
    match file_write w path with
    | Ok _ => (Ok tt, mkState (<[path := TokenFile creds]> (fs s)) (trace s))
    | Raise e => (Raise e, mkState (<[path := OtherFile]> (fs s)) (trace s))
    end.

(** [build("gmail", "v1", credentials=creds)], with the discovery document
    that ships with the client library: no round trip, no failure. *)
Definition build (creds : Credentials) : M Service :=
  emit Build ;;; ret (mkService creds).

(** [service.users().messages().list(userId="me", q=..., maxResults=...).execute()] *)
Definition execute_messages_list (service : Service) (q max_results : pyval)
  : M ListMessagesResponse :=
  emit (MessagesList q max_results) ;;; lift (messages_list w q max_results).

(** [service.users().messages().get(userId="me", id=..., format=...).execute()] *)
Definition execute_messages_get (service : Service) (id : pyval) (format : str)
  : M Message :=
  emit (MessagesGet id format) ;;; lift (messages_get w id format).

(** [service.users().messages().send(userId="me", body={"raw": raw}).execute()] *)
Definition execute_messages_send (service : Service) (raw : str) : M SentMessage :=
  emit (MessagesSend raw) ;;; lift (messages_send w raw).

(** [service.users().labels().list(userId="me").execute()] *)
Definition execute_labels_list (service : Service) : M ListLabelsResponse :=
  emit LabelsList ;;; lift (labels_list w).

(** [MIMEText(text)]: the constructor calls [text.encode], which only a
    [str] has.  A [str] is taken to encode; one that does not (a lone
    surrogate) makes the constructor raise too, and the statements below
    that follow a body past the constructor take it to be made of scalar
    values. *)
Definition MIMEText_init (text : pyval) : M MIMEText :=
  match text with
  | PyStr s => ret (mkMIMEText s [])
  | _ => raise AttributeError
  end.

(** [message[key] = value] *)
Definition MIMEText_setitem (message : MIMEText) (key : str) (value : pyval)
  : MIMEText :=
  mkMIMEText (mime_text message) (mime_headers message ++ [(key, value)]).

(** [base64.urlsafe_b64decode(data).decode("utf-8")] *)
Definition decode_body (d : str) : M str :=
  lift (result_bind (Base64.urlsafe_b64decode d) Utf8.decode).

(** *** [get_gmail_service] *)

Definition credentials_not_found (credentials_path : str) : str :=
  lit "Credentials file not found at " ++ credentials_path
  ++ lit ". Please download it from Google Cloud Console.".

(** The [else] branch of the refresh test: the interactive flow, which
    needs the client-secrets file. *)
Definition interactive_authorization (credentials_path : str) : M Credentials :=
  credentials_exist <~ os_path_exists credentials_path ;;
  if negb credentials_exist
  then raise (FileNotFoundError (credentials_not_found credentials_path))
  else
    from_client_secrets_file credentials_path ;;;
    run_local_server.

(** [if creds and creds.expired and creds.refresh_token: ... else: ...] *)
Definition renew (creds : option Credentials) (credentials_path : str)
  : M Credentials :=
  match creds with
  | Some c =>
      if expired c && has_refresh_token c then refresh c
      else interactive_authorization credentials_path
  | None => interactive_authorization credentials_path
  end.

Definition token_path : str :=
  os_environ_get (lit "GMAIL_TOKEN_PATH") (lit "token.json").

Definition credentials_path : str :=
  os_environ_get (lit "GMAIL_CREDENTIALS_PATH") (lit "credentials.json").

Definition get_gmail_service : M Service :=
  token_exists <~ os_path_exists token_path ;;
  creds <~ (if token_exists : bool
            then c <~ from_authorized_user_file token_path ;; ret (Some c)
            else ret None) ;;
  creds <~ match creds with
           | Some c =>
               if valid c then ret c
               else
                 c' <~ renew creds credentials_path ;;
                 write_token token_path c' ;;;
                 ret c'
           | None =>
               c' <~ renew creds credentials_path ;;
               write_token token_path c' ;;;
               ret c'
           end ;;
  build creds.

(** *** [list_tools] *)

Definition list_tools : list Tool :=
  [ mkTool (lit "gmail_search")
      (lit "Search for emails in Gmail using Gmail's search syntax")
      (mkInputSchema (lit "object")
         [ (lit "query",
            mkProperty (lit "string")
              (lit "Gmail search query (e.g., 'from:example@gmail.com', 'subject:meeting', 'is:unread')")
              None);
           (lit "max_results",
            mkProperty (lit "integer")
              (lit "Maximum number of results to return (default: 10)")
              (Some (PyInt 10))) ]
         (Some [lit "query"]));
    mkTool (lit "gmail_read")
      (lit "Read the full content of a specific email by its ID")
      (mkInputSchema (lit "object")
         [ (lit "message_id",
            mkProperty (lit "string")
              (lit "The ID of the email message to read") None) ]
         (Some [lit "message_id"]));
    mkTool (lit "gmail_send")
      (lit "Send an email through Gmail")
      (mkInputSchema (lit "object")
         [ (lit "to", mkProperty (lit "string") (lit "Recipient email address") None);
           (lit "subject", mkProperty (lit "string") (lit "Email subject") None);
           (lit "body", mkProperty (lit "string") (lit "Email body content") None) ]
         (Some [lit "to"; lit "subject"; lit "body"]));
    mkTool (lit "gmail_list_labels")
      (lit "List all labels in the Gmail account")
      (mkInputSchema (lit "object") [] None) ].

(** The names the registry declares, and what a schema says of its fields. *)
Definition registered_names : list str := name <$> list_tools.

Definition required_fields (t : Tool) : list str :=
  default [] (required (inputSchema t)).

Definition field_names (t : Tool) : list str :=
  fst <$> properties (inputSchema t).

Definition optional_fields (t : Tool) : list str :=
  filter (fun f => f ∉ required_fields t) (field_names t).

Definition field_default (t : Tool) (field : str) : option pyval :=
  '(_, p) ← find (fun fp => bool_decide (fst fp = field)) (properties (inputSchema t));
  prop_default p.

(** *** The handlers *)

Definition search_block (msg : MessageRef) (hdrs : gmap str str) : str :=
  lit "ID: " ++ ref_id msg ++ nl
  ++ lit "From: " ++ dict_get hdrs (lit "From") (lit "Unknown") ++ nl
  ++ lit "Subject: " ++ dict_get hdrs (lit "Subject") (lit "No Subject") ++ nl
  ++ lit "Date: " ++ dict_get hdrs (lit "Date") (lit "Unknown") ++ nl
  ++ lit "---".

Definition _search_emails (service : Service) (arguments : gmap str pyval)
  : M (list TextContent) :=
  query <~ getitem arguments (lit "query") ;;
  let max_results := dict_get arguments (lit "max_results") (PyInt 10) in
  results <~ execute_messages_list service query max_results ;;
  let messages := default [] (messages results) in
  match messages with
  | [] => ret [mkTextContent (lit "text") (lit "No messages found.")]
  | _ =>
      output <~ for_each (fun msg =>
                  msg_data <~ execute_messages_get service (PyStr (ref_id msg))
                                (lit "metadata") ;;
                  let hdrs := headers_dict (headers (payload msg_data)) in
                  ret (search_block msg hdrs)) messages ;;
      ret [mkTextContent (lit "text") (join nl output)]
  end.

(** The [for part in msg["payload"]["parts"]] loop with its [break]. *)
Fixpoint scan_parts (ps : list MessagePart) : M str :=
  match ps with
  | [] => ret []
  | part :: rest =>
      if bool_decide (mimeType part = lit "text/plain") then
        b <~ match body part with
             | Some b => ret b
             | None => raise (KeyError (lit "body"))
             end ;;
        d <~ match data b with
             | Some d => ret d
             | None => raise (KeyError (lit "data"))
             end ;;
        decode_body d
      else scan_parts rest
  end.

(** The block under [# Extract body]. *)
Definition extract_body (p : MessagePart) : M str :=
  match parts p with
  | Some ps => scan_parts ps
  | None =>
      match body p with
      | Some b =>
          match data b with
          | Some d => decode_body d
          | None => ret []
          end
      | None => ret []
      end
  end.

Definition read_header_block (hdrs : gmap str str) : str :=
  lit "From: " ++ dict_get hdrs (lit "From") (lit "Unknown") ++ nl
  ++ lit "To: " ++ dict_get hdrs (lit "To") (lit "Unknown") ++ nl
  ++ lit "Subject: " ++ dict_get hdrs (lit "Subject") (lit "No Subject") ++ nl
  ++ lit "Date: " ++ dict_get hdrs (lit "Date") (lit "Unknown") ++ nl.

Definition _read_email (service : Service) (arguments : gmap str pyval)
  : M (list TextContent) :=
  message_id <~ getitem arguments (lit "message_id") ;;
  msg <~ execute_messages_get service message_id (lit "full") ;;
  let hdrs := headers_dict (headers (payload msg)) in
  body_text <~ extract_body (payload msg) ;;
  let output := read_header_block hdrs ++ nl ++ body_text in
  ret [mkTextContent (lit "text") output].

Definition _send_email (service : Service) (arguments : gmap str pyval)
  : M (list TextContent) :=
  body_arg <~ getitem arguments (lit "body") ;;
  message <~ MIMEText_init body_arg ;;
  to_arg <~ getitem arguments (lit "to") ;;
  let message := MIMEText_setitem message (lit "to") to_arg in
  subject_arg <~ getitem arguments (lit "subject") ;;
  let message := MIMEText_setitem message (lit "subject") subject_arg in
  raw_bytes <~ lift (as_bytes message) ;;
  let raw := Base64.urlsafe_b64encode raw_bytes in
  sent_message <~ execute_messages_send service raw ;;
  ret [mkTextContent (lit "text")
         (lit "Email sent successfully. Message ID: " ++ sent_id sent_message)].

Definition label_line (label : Label) : str :=
  lit "- " ++ label_name label ++ lit " (ID: " ++ label_id label ++ lit ")".

Definition _list_labels (service : Service) : M (list TextContent) :=
  results <~ execute_labels_list service ;;
  let labels := default [] (labels results) in
  match labels with
  | [] => ret [mkTextContent (lit "text") (lit "No labels found.")]
  | _ =>
      let output := [lit "Gmail Labels:"; lit "---"] ++ (label_line <$> labels) in
      ret [mkTextContent (lit "text") (join nl output)]
  end.

(** *** [call_tool] *)

Definition call_tool (name : str) (arguments : gmap str pyval)
  : M (list TextContent) :=
  service <~ get_gmail_service ;;
  if bool_decide (name = lit "gmail_search") then _search_emails service arguments
  else if bool_decide (name = lit "gmail_read") then _read_email service arguments
  else if bool_decide (name = lit "gmail_send") then _send_email service arguments
  else if bool_decide (name = lit "gmail_list_labels") then _list_labels service
  else raise (ValueError (lit "Unknown tool: " ++ name)).

End Program.

(** ** Statements of the specification *)

(** An unregistered name rejected with nothing done before: the call fails
    with [ValueError] in the state it started from. *)
Definition rejected_before_any_effect (w : World)
    (as_bytes : MIMEText -> result bytes)
    (name : str) (arguments : gmap str pyval) (s : State) : Prop :=
  exists msg, call_tool w as_bytes name arguments s = (Raise (ValueError msg), s).










(** A call lacking a required field that fails with [KeyError] on such a
    field. *)
Definition missing_field_raises_key_error (w : World)
    (as_bytes : MIMEText -> result bytes) (tool : Tool)
    (args : gmap str pyval) (s : State) : Prop :=
  (exists field, field ∈ required_fields tool /\ args !! field = None) ->
  exists field,
    field ∈ required_fields tool /\ args !! field = None
    /\ fst (call_tool w as_bytes (name tool) args s) = Raise (KeyError field).

(** The lines of a block of [gmail_search] for a message with headers
    [hs], and the header lines of [gmail_read]. *)
Definition search_lines (msg : MessageRef) (hs : list Header) : list str :=
  let hdrs := headers_dict hs in
  [ lit "ID: " ++ ref_id msg;
    lit "From: " ++ dict_get hdrs (lit "From") (lit "Unknown");
    lit "Subject: " ++ dict_get hdrs (lit "Subject") (lit "No Subject");
    lit "Date: " ++ dict_get hdrs (lit "Date") (lit "Unknown");
    lit "---" ].

Definition read_lines (hs : list Header) : list str :=
  let hdrs := headers_dict hs in
  [ lit "From: " ++ dict_get hdrs (lit "From") (lit "Unknown");
    lit "To: " ++ dict_get hdrs (lit "To") (lit "Unknown");
    lit "Subject: " ++ dict_get hdrs (lit "Subject") (lit "No Subject");
    lit "Date: " ++ dict_get hdrs (lit "Date") (lit "Unknown") ].

(** The [messages().get] calls of a search, in order. *)
Definition metadata_gets (refs : list MessageRef) : list event :=
  (fun ref => MessagesGet (PyStr (ref_id ref)) (lit "metadata")) <$> refs.

(** ** Observations on a run *)

(** A computation that leaves the file system as it found it. *)
Definition keeps_fs {A} (m : M A) : Prop :=
  forall s, fs (snd (m s)) = fs s.

(** The events a run from [s] added to the trace, given the state it ended
    in. *)
Definition new_events (s s' : State) : list event :=
  drop (length (trace s)) (trace s').

(** How many of the events are network round trips. *)
Definition network_round_trips (evs : list event) : nat :=
  length (List.filter is_network evs).

(** The file an event is about, if any. *)
Definition event_path (e : event) : option str :=
  match e with
  | PathExists p | ReadTokenFile p | ReadClientSecrets p | WriteTokenFile p =>
      Some p
  | _ => None
  end.

(** A character of the URL-safe base64 alphabet, or the pad character. *)
Definition urlsafe_char (ch : N) : bool :=
  ((65 <=? ch) && (ch <=? 90) || (97 <=? ch) && (ch <=? 122)
   || (48 <=? ch) && (ch <=? 57) || (ch =? 45) || (ch =? 95) || (ch =? 61))%N.

(** ** Scenarios *)

Module Scenario.

Definition credentials_expired : Credentials :=
  mkCredentials (Some (lit "ya29.old")) true (Some (lit "1//refresh")).

Definition credentials_fresh : Credentials :=
  mkCredentials (Some (lit "ya29.new")) false (Some (lit "1//refresh")).

(** "Hello" *)
Definition hello_data : str := lit "SGVsbG8=".

Definition message_plain : Message :=
  mkMessage (lit "m1")
    (mkPart (lit "text/plain")
       [mkHeader (lit "From") (lit "alice@example.com");
        mkHeader (lit "Subject") (lit "Lunch")]
       (Some (mkBody (Some hello_data))) None).

(** multipart/mixed > multipart/alternative > text/plain *)
Definition message_nested : Message :=
  mkMessage (lit "m2")
    (mkPart (lit "multipart/mixed") []
       (Some (mkBody None))
       (Some [mkPart (lit "multipart/alternative") [] (Some (mkBody None))
                (Some [mkPart (lit "text/plain") []
                         (Some (mkBody (Some hello_data))) None])])).

(** "H", e with acute accent, the euro sign and an emoji: one code point of
    each encoded length. *)
Definition text_mixed : str := [72%N; 233%N; 8364%N; 128512%N].

Definition message_mixed : Message :=
  mkMessage (lit "m3")
    (mkPart (lit "text/plain") [mkHeader (lit "To") (lit "bob@example.com")]
       (Some (mkBody (Some (lit "SMOp4oKs8J-YgA==")))) None).

Definition world : World :=
  mkWorld ∅
    (fun _ => Ok credentials_fresh)
    (Ok credentials_fresh)
    (fun _ _ => Ok (mkListMessages (Some [mkMessageRef (lit "m1")])))
    (fun id _ =>
       match id with
       | PyStr [109%N; 50%N] => Ok message_nested
       | PyStr [109%N; 51%N] => Ok message_mixed
       | _ => Ok message_plain
       end)
    (fun _ => Ok (mkSent (lit "s1")))
    (Ok (mkListLabels (Some [mkLabel (lit "Label_1") (lit "Work");
                             mkLabel (lit "INBOX") (lit "INBOX")])))
    (fun _ => Ok tt)
    (fun _ => Ok tt).

(** A mailbox with no message and no label. *)
Definition world_empty : World :=
  mkWorld ∅
    (fun _ => Ok credentials_fresh)
    (Ok credentials_fresh)
    (fun _ _ => Ok (mkListMessages None))
    (fun _ _ => Raise (HttpError 404))
    (fun _ => Ok (mkSent (lit "s1")))
    (Ok (mkListLabels None))
    (fun _ => Ok tt)
    (fun _ => Ok tt).

(** A stand-in for the serialiser: the header values, then the text. *)
Definition serialise (m : MIMEText) : result bytes :=
  Ok (concat ((fun kv => match snd kv with PyStr v => v ++ nl | _ => [] end)
                <$> mime_headers m) ++ nl ++ mime_text m).

Definition service : Service := mkService credentials_fresh.

Definition logged_in : State :=
  mkState {[ lit "token.json" := TokenFile credentials_fresh ]} [].

Definition token_expired : State :=
  mkState {[ lit "token.json" := TokenFile credentials_expired ]} [].

Definition fresh_install : State := mkState ∅ [].

(** The client-secrets file is in place, no token yet. *)
Definition first_run : State :=
  mkState {[ lit "credentials.json" := ClientSecretsFile ]} [].

(** The refresh token was revoked and the service is out of reach. *)
Definition world_down : World :=
  mkWorld ∅
    (fun _ => Raise RefreshError)
    (Raise LibraryError)
    (fun _ _ => Raise (HttpError 503))
    (fun _ _ => Raise (HttpError 503))
    (fun _ => Raise (HttpError 503))
    (Raise (HttpError 503))
    (fun _ => Ok tt)
    (fun _ => Ok tt).

(** Three messages listed, the second of which cannot be fetched. *)
Definition world_gap : World :=
  mkWorld ∅
    (fun _ => Ok credentials_fresh)
    (Ok credentials_fresh)
    (fun _ _ => Ok (mkListMessages
                      (Some [mkMessageRef (lit "m1"); mkMessageRef (lit "m2");
                             mkMessageRef (lit "m3")])))
    (fun id _ =>
       match id with
       | PyStr [109%N; 50%N] => Raise (HttpError 404)
       | _ => Ok message_plain
       end)
    (fun _ => Ok (mkSent (lit "s1")))
    (Ok (mkListLabels None))
    (fun _ => Ok tt)
    (fun _ => Ok tt).

(** A text attachment only: the part has an attachment id and no data. *)
Definition message_attachment : Message :=
  mkMessage (lit "m4")
    (mkPart (lit "multipart/mixed") [] (Some (mkBody None))
       (Some [mkPart (lit "text/plain") [] (Some (mkBody None)) None])).

(** Latin-1 bytes (an e with acute accent as the single octet 233), which
    are not UTF-8; and a later part that would decode. *)
Definition message_latin1 : Message :=
  mkMessage (lit "m5")
    (mkPart (lit "multipart/alternative") [] (Some (mkBody None))
       (Some [mkPart (lit "text/plain") [] (Some (mkBody (Some (lit "6Q=="))))
                None;
              mkPart (lit "text/plain") [] (Some (mkBody (Some hello_data)))
                None])).

Definition world_odd : World :=
  mkWorld ∅
    (fun _ => Ok credentials_fresh)
    (Ok credentials_fresh)
    (fun _ _ => Ok (mkListMessages None))
    (fun id _ =>
       match id with
       | PyStr [109%N; 52%N] => Ok message_attachment
       | _ => Ok message_latin1
       end)
    (fun _ => Ok (mkSent (lit "s1")))
    (Ok (mkListLabels None))
    (fun _ => Ok tt)
    (fun _ => Ok tt).




(** The entries of the registry for [gmail_search] and [gmail_send]. *)
Definition tool_search : Tool :=
  nth 0 list_tools (mkTool [] [] (mkInputSchema [] [] None)).

Definition tool_send : Tool :=
  nth 2 list_tools (mkTool [] [] (mkInputSchema [] [] None)).

(** The token file cannot be opened for writing. *)
Definition world_locked : World :=
  mkWorld ∅
    (fun _ => Ok credentials_fresh)
    (Ok credentials_fresh)
    (fun _ _ => Ok (mkListMessages None))
    (fun _ _ => Ok message_plain)
    (fun _ => Ok (mkSent (lit "s1")))
    (Ok (mkListLabels None))
    (fun path => Raise (FileNotFoundError path))
    (fun _ => Ok tt).

End Scenario.

(** * Bit operations as arithmetic *)

Section BitArith.
Local Open Scope N_scope.

Lemma lor_disjoint a b n : b < 2 ^ n -> N.lor (a * 2 ^ n) b = a * 2 ^ n + b.
Proof.
  intros Hb.
  assert (Hland : N.land (a * 2 ^ n) b = 0).
  { apply N.bits_inj. intros m. rewrite N.land_spec, N.bits_0.
    destruct (N.lt_ge_cases m n) as [Hm|Hm].
    - rewrite N.mul_pow2_bits_low by assumption. reflexivity.
    - rewrite <- (N.mod_small b (2 ^ n)) by assumption.
      rewrite N.mod_pow2_bits_high by assumption. apply andb_false_r. }
  rewrite N.add_nocarry_lxor by assumption.
  symmetry. apply N.lxor_lor. assumption.
Qed.

Lemma shiftr_2 x : N.shiftr x 2 = x / 4.
Proof. exact (N.shiftr_div_pow2 x 2). Qed.
Lemma shiftr_4 x : N.shiftr x 4 = x / 16.
Proof. exact (N.shiftr_div_pow2 x 4). Qed.
Lemma shiftr_6 x : N.shiftr x 6 = x / 64.
Proof. exact (N.shiftr_div_pow2 x 6). Qed.
Lemma shiftr_12 x : N.shiftr x 12 = x / 4096.
Proof. exact (N.shiftr_div_pow2 x 12). Qed.
Lemma shiftr_18 x : N.shiftr x 18 = x / 262144.
Proof. exact (N.shiftr_div_pow2 x 18). Qed.

Lemma shiftl_2 x : N.shiftl x 2 = x * 4.
Proof. exact (N.shiftl_mul_pow2 x 2). Qed.
Lemma shiftl_4 x : N.shiftl x 4 = x * 16.
Proof. exact (N.shiftl_mul_pow2 x 4). Qed.
Lemma shiftl_6 x : N.shiftl x 6 = x * 64.
Proof. exact (N.shiftl_mul_pow2 x 6). Qed.
Lemma shiftl_12 x : N.shiftl x 12 = x * 4096.
Proof. exact (N.shiftl_mul_pow2 x 12). Qed.
Lemma shiftl_18 x : N.shiftl x 18 = x * 262144.
Proof. exact (N.shiftl_mul_pow2 x 18). Qed.

Lemma land_3 x : N.land x 3 = x mod 4.
Proof. exact (N.land_ones x 2). Qed.
Lemma land_7 x : N.land x 7 = x mod 8.
Proof. exact (N.land_ones x 3). Qed.
Lemma land_15 x : N.land x 15 = x mod 16.
Proof. exact (N.land_ones x 4). Qed.
Lemma land_31 x : N.land x 31 = x mod 32.
Proof. exact (N.land_ones x 5). Qed.
Lemma land_63 x : N.land x 63 = x mod 64.
Proof. exact (N.land_ones x 6). Qed.

Lemma lor_mul_4 a b : b < 4 -> N.lor (a * 4) b = a * 4 + b.
Proof. exact (lor_disjoint a b 2). Qed.
Lemma lor_mul_16 a b : b < 16 -> N.lor (a * 16) b = a * 16 + b.
Proof. exact (lor_disjoint a b 4). Qed.
Lemma lor_mul_64 a b : b < 64 -> N.lor (a * 64) b = a * 64 + b.
Proof. exact (lor_disjoint a b 6). Qed.
Lemma lor_mul_4096 a b : b < 4096 -> N.lor (a * 4096) b = a * 4096 + b.
Proof. exact (lor_disjoint a b 12). Qed.
Lemma lor_mul_262144 a b : b < 262144 -> N.lor (a * 262144) b = a * 262144 + b.
Proof. exact (lor_disjoint a b 18). Qed.

Lemma lor_128 b : b < 64 -> N.lor 128 b = 128 + b.
Proof. intros H. apply (lor_disjoint 1 b 7). simpl. lia. Qed.
Lemma lor_192 b : b < 64 -> N.lor 192 b = 192 + b.
Proof. intros H. exact (lor_disjoint 3 b 6 H). Qed.
Lemma lor_224 b : b < 16 -> N.lor 224 b = 224 + b.
Proof. intros H. apply (lor_disjoint 7 b 5). simpl. lia. Qed.
Lemma lor_240 b : b < 8 -> N.lor 240 b = 240 + b.
Proof. intros H. apply (lor_disjoint 15 b 4). simpl. lia. Qed.

End BitArith.

Ltac dlia := zify; Z.to_euclidean_division_equations; lia.

Ltac shifts_to_arith :=
  rewrite ?shiftr_2, ?shiftr_4, ?shiftr_6, ?shiftr_12, ?shiftr_18,
    ?shiftl_2, ?shiftl_4, ?shiftl_6, ?shiftl_12, ?shiftl_18,
    ?land_3, ?land_7, ?land_15, ?land_31, ?land_63.

(** * Base64: decoding inverts encoding *)

Section Base64Facts.
Import Base64.
Local Open Scope N_scope.

Lemma forallb_below (P : N -> bool) (n : nat) :
  forallb P (N.of_nat <$> seq 0 n) = true ->
  forall v, v < N.of_nat n -> P v = true.
Proof.
  intros Hall v Hv.
  rewrite forallb_forall in Hall. apply Hall.
  apply in_map_iff. exists (N.to_nat v). split.
  - apply N2Nat.id.
  - apply in_seq. lia.
Qed.

Lemma wire_spec v :
  v < 64 -> (wire v =? BASE64_PAD) = false /\ a2b (wire v) = Some v.
Proof.
  intros Hv.
  pose (P := fun v => negb (wire v =? BASE64_PAD)
                      && bool_decide (a2b (wire v) = Some v)).
  assert (HP : P v = true).
  { apply (forallb_below P 64); [vm_compute; reflexivity | exact Hv]. }
  unfold P in HP. apply andb_prop in HP as [H1 H2].
  apply negb_true_iff in H1. apply bool_decide_eq_true in H2. auto.
Qed.

Lemma urlsafe_char_ascii v : (urlsafe_encode_translation (b2a v) <? 128) = true.
Proof.
  destruct (N.lt_ge_cases v 64) as [Hv|Hv].
  - apply (forallb_below (fun v => urlsafe_encode_translation (b2a v) <? 128) 64);
      [vm_compute; reflexivity | exact Hv].
  - unfold b2a. rewrite nth_overflow; [reflexivity|].
    change (length table_b2a_base64) with 64%nat. lia.
Qed.

Lemma a2b_loop_sextet v rest quad_pos leftchar pads out :
  v < 64 ->
  a2b_loop (wire v :: rest) quad_pos leftchar pads out =
    if quad_pos =? 0 then a2b_loop rest 1 v 0 out
    else if quad_pos =? 1 then
      a2b_loop rest 2 (N.land v 15) 0
        (N.lor (N.shiftl leftchar 2) (N.shiftr v 4) :: out)
    else if quad_pos =? 2 then
      a2b_loop rest 3 (N.land v 3) 0
        (N.lor (N.shiftl leftchar 4) (N.shiftr v 2) :: out)
    else a2b_loop rest 0 0 0 (N.lor (N.shiftl leftchar 6) v :: out).
Proof.
  intros Hv. destruct (wire_spec v Hv) as [Hpad Hval].
  cbn [a2b_loop]. rewrite Hpad, Hval. reflexivity.
Qed.

(** The four sextets of three octets, and the octets read back. *)
Lemma sextet_0 b0 : octet b0 -> N.shiftr b0 2 < 64.
Proof. unfold octet. intros. shifts_to_arith. dlia. Qed.

Lemma sextet_1 b0 b1 :
  octet b1 -> N.lor (N.shiftl (N.land b0 3) 4) (N.shiftr b1 4) = b0 mod 4 * 16 + b1 / 16.
Proof. unfold octet. intros. shifts_to_arith. apply lor_mul_16. dlia. Qed.

Lemma sextet_1_tail b0 : N.shiftl (N.land b0 3) 4 = b0 mod 4 * 16.
Proof. shifts_to_arith. reflexivity. Qed.

Lemma sextet_2 b1 b2 :
  octet b2 -> N.lor (N.shiftl (N.land b1 15) 2) (N.shiftr b2 6) = b1 mod 16 * 4 + b2 / 64.
Proof. unfold octet. intros. shifts_to_arith. apply lor_mul_4. dlia. Qed.

Lemma sextet_2_tail b1 : N.shiftl (N.land b1 15) 2 = b1 mod 16 * 4.
Proof. shifts_to_arith. reflexivity. Qed.

Lemma sextet_3 b2 : N.land b2 63 = b2 mod 64.
Proof. apply land_63. Qed.

Lemma octet_0 b0 v1 :
  octet b0 -> v1 / 16 = b0 mod 4 ->
  N.lor (N.shiftl (b0 / 4) 2) (N.shiftr v1 4) = b0.
Proof.
  unfold octet. intros H0 H1. shifts_to_arith. rewrite H1.
  rewrite lor_mul_4 by dlia. dlia.
Qed.

Lemma octet_1 b1 v1 v2 :
  octet b1 -> v1 mod 16 = b1 / 16 -> v2 / 4 = b1 mod 16 ->
  N.lor (N.shiftl (N.land v1 15) 4) (N.shiftr v2 2) = b1.
Proof.
  unfold octet. intros H0 H1 H2. shifts_to_arith. rewrite H1, H2.
  rewrite lor_mul_16 by dlia. dlia.
Qed.

Lemma octet_2 b2 v2 :
  octet b2 -> v2 mod 4 = b2 / 64 ->
  N.lor (N.shiftl (N.land v2 3) 6) (b2 mod 64) = b2.
Proof.
  unfold octet. intros H0 H1. shifts_to_arith. rewrite H1.
  rewrite lor_mul_64 by dlia. dlia.
Qed.

Lemma list_ind3 {A} (P : list A -> Prop) :
  P [] -> (forall a, P [a]) -> (forall a b, P [a; b]) ->
  (forall a b c l, P l -> P (a :: b :: c :: l)) ->
  forall l, P l.
Proof.
  intros H0 H1 H2 H3.
  assert (H : forall l, P l /\ (forall a, P (a :: l)) /\ (forall a b, P (a :: b :: l))).
  { induction l as [|x l (IH0 & IH1 & IH2)]; [auto|].
    split; [apply IH1|]. split; [intros a; apply IH2|].
    intros a b. apply H3, IH0. }
  intros l. apply H.
Qed.

Lemma a2b_loop_b2a_base64 bs :
  Forall octet bs ->
  forall out,
    a2b_loop (urlsafe_decode_translation <$> urlsafe_b64encode bs) 0 0 0 out
    = Ok (rev out ++ bs).
Proof.
  unfold urlsafe_b64encode.
  induction bs as [|b0|b0 b1|b0 b1 b2 rest IH] using list_ind3; intros Hall out.
  - cbn. rewrite app_nil_r. reflexivity.
  - apply Forall_cons in Hall as [H0 _].
    cbn [b2a_base64 fmap list_fmap].
    fold (wire (N.shiftr b0 2)). fold (wire (N.shiftl (N.land b0 3) 4)).
    rewrite sextet_1_tail, shiftr_2.
    rewrite !a2b_loop_sextet by (unfold octet in *; dlia).
    cbn [N.eqb Pos.eqb].
    rewrite (octet_0 b0) by (auto; unfold octet in *; dlia).
    cbn. rewrite <- ?app_assoc. reflexivity.
  - apply Forall_cons in Hall as [H0 Hall]. apply Forall_cons in Hall as [H1 _].
    cbn [b2a_base64 fmap list_fmap].
    fold (wire (N.shiftr b0 2)).
    fold (wire (N.lor (N.shiftl (N.land b0 3) 4) (N.shiftr b1 4))).
    fold (wire (N.shiftl (N.land b1 15) 2)).
    rewrite sextet_1, sextet_2_tail, shiftr_2 by assumption.
    rewrite !a2b_loop_sextet by (unfold octet in *; dlia).
    cbn [N.eqb Pos.eqb].
    rewrite (octet_0 b0) by (auto; unfold octet in *; dlia).
    rewrite (octet_1 b1) by (auto; unfold octet in *; dlia).
    cbn. rewrite <- ?app_assoc. reflexivity.
  - apply Forall_cons in Hall as [H0 Hall]. apply Forall_cons in Hall as [H1 Hall].
    apply Forall_cons in Hall as [H2 Hall].
    cbn [b2a_base64 fmap list_fmap].
    fold (wire (N.shiftr b0 2)).
    fold (wire (N.lor (N.shiftl (N.land b0 3) 4) (N.shiftr b1 4))).
    fold (wire (N.lor (N.shiftl (N.land b1 15) 2) (N.shiftr b2 6))).
    fold (wire (N.land b2 63)).
    rewrite sextet_1, sextet_2, sextet_3, shiftr_2 by assumption.
    rewrite !a2b_loop_sextet by (unfold octet in *; dlia).
    cbn [N.eqb Pos.eqb].
    rewrite (octet_0 b0) by (auto; unfold octet in *; dlia).
    rewrite (octet_1 b1) by (auto; unfold octet in *; dlia).
    rewrite (octet_2 b2) by (auto; unfold octet in *; dlia).
    rewrite (IH Hall). cbn. rewrite <- ?app_assoc. reflexivity.
Qed.

Lemma urlsafe_b64encode_ascii bs :
  forallb (fun ch => ch <? 128) (urlsafe_b64encode bs) = true.
Proof.
  unfold urlsafe_b64encode.
  induction bs as [|b0|b0 b1|b0 b1 b2 rest IH] using list_ind3;
    cbn [b2a_base64 fmap list_fmap forallb];
    rewrite ?urlsafe_char_ascii, ?IH; reflexivity.
Qed.

Theorem urlsafe_b64decode_b64encode bs :
  Forall octet bs -> urlsafe_b64decode (urlsafe_b64encode bs) = Ok bs.
Proof.
  intros Hall. unfold urlsafe_b64decode, a2b_base64.
  rewrite urlsafe_b64encode_ascii.
  rewrite (a2b_loop_b2a_base64 bs Hall). reflexivity.
Qed.

End Base64Facts.

(** * UTF-8: decoding inverts encoding *)

Section Utf8Facts.
Import Base64 Utf8.
Local Open Scope N_scope.

Lemma is_scalar_spec c : is_scalar c = true <-> scalar c.
Proof.
  unfold is_scalar, scalar.
  rewrite orb_true_iff, andb_true_iff, !N.ltb_lt, N.leb_le. reflexivity.
Qed.

Lemma byte_1 c : c < 2048 -> N.lor 192 (N.shiftr c 6) = 192 + c / 64.
Proof. intros. shifts_to_arith. apply lor_192. dlia. Qed.

Lemma byte_1_of_3 c : c < 65536 -> N.lor 224 (N.shiftr c 12) = 224 + c / 4096.
Proof. intros. shifts_to_arith. apply lor_224. dlia. Qed.

Lemma byte_1_of_4 c : c < 1114112 -> N.lor 240 (N.shiftr c 18) = 240 + c / 262144.
Proof. intros. shifts_to_arith. apply lor_240. dlia. Qed.

Lemma trail_byte x : N.lor 128 (N.land x 63) = 128 + x mod 64.
Proof. shifts_to_arith. apply lor_128. dlia. Qed.

Lemma trail_bits x : N.land (128 + x mod 64) 63 = x mod 64.
Proof. shifts_to_arith. dlia. Qed.

Lemma continuation_trail x : continuation (128 + x mod 64) = true.
Proof. unfold continuation. apply andb_true_intro. split; apply N.leb_le; dlia. Qed.

Lemma decode_2 c :
  128 <= c < 2048 ->
  N.lor (N.shiftl (N.land (192 + c / 64) 31) 6) (c mod 64) = c.
Proof. intros. shifts_to_arith. rewrite lor_mul_64 by dlia. dlia. Qed.

Lemma decode_3 c :
  2048 <= c < 65536 ->
  N.lor (N.shiftl (N.land (224 + c / 4096) 15) 12)
    (N.lor (N.shiftl ((c / 64) mod 64) 6) (c mod 64)) = c.
Proof.
  intros. shifts_to_arith.
  rewrite (lor_mul_64 ((c / 64) mod 64)) by dlia.
  rewrite lor_mul_4096 by dlia. dlia.
Qed.

Lemma decode_4 c :
  65536 <= c < 1114112 ->
  N.lor (N.shiftl (N.land (240 + c / 262144) 7) 18)
    (N.lor (N.shiftl ((c / 4096) mod 64) 12)
       (N.lor (N.shiftl ((c / 64) mod 64) 6) (c mod 64))) = c.
Proof.
  intros. shifts_to_arith.
  rewrite (lor_mul_64 ((c / 64) mod 64)) by dlia.
  rewrite (lor_mul_4096 ((c / 4096) mod 64)) by dlia.
  rewrite lor_mul_262144 by dlia. dlia.
Qed.

Lemma decode_encode_code_point c rest :
  scalar c ->
  exists bs, encode_code_point c = Ok bs
             /\ Forall octet bs
             /\ decode (bs ++ rest) = result_map (cons c) (decode rest).
Proof.
  unfold scalar, encode_code_point, octet. intros Hc.
  destruct (N.ltb_spec c 128) as [H1|H1].
  { exists [c]. split; [reflexivity|]. split; [repeat constructor; lia|].
    cbn [app decode]. replace (c <? 128) with true by (symmetry; apply N.ltb_lt; lia).
    reflexivity. }
  destruct (N.ltb_spec c 2048) as [H2|H2].
  { eexists. split; [reflexivity|].
    rewrite byte_1, trail_byte by assumption.
    split; [repeat constructor; unfold octet; dlia|].
    cbn [app decode].
    rewrite continuation_trail, trail_bits.
    replace (192 + c / 64 <? 128) with false by (symmetry; apply N.ltb_ge; dlia).
    replace (194 <=? 192 + c / 64) with true by (symmetry; apply N.leb_le; dlia).
    replace (192 + c / 64 <=? 223) with true by (symmetry; apply N.leb_le; dlia).
    cbn [andb]. rewrite decode_2 by lia. reflexivity. }
  destruct (N.ltb_spec c 65536) as [H3|H3].
  { assert (Hs : (55296 <=? c) && (c <=? 57343) = false).
    { apply andb_false_iff.
      destruct Hc as [Hc|[Hc _]]; [left | right]; apply N.leb_gt; lia. }
    rewrite Hs.
    eexists. split; [reflexivity|].
    rewrite byte_1_of_3, !trail_byte by assumption.
    rewrite shiftr_6.
    split; [repeat constructor; unfold octet; dlia|].
    cbn [app decode].
    rewrite !continuation_trail, !trail_bits.
    replace (224 + c / 4096 <? 128) with false by (symmetry; apply N.ltb_ge; dlia).
    replace (194 <=? 224 + c / 4096) with true by (symmetry; apply N.leb_le; dlia).
    replace (224 + c / 4096 <=? 223) with false by (symmetry; apply N.leb_gt; dlia).
    replace (224 <=? 224 + c / 4096) with true by (symmetry; apply N.leb_le; dlia).
    replace (224 + c / 4096 <=? 239) with true by (symmetry; apply N.leb_le; dlia).
    cbn [andb].
    assert (Hlo : ((if 224 + c / 4096 =? 224 then 160 else 128)
                     <=? 128 + (c / 64) mod 64) = true).
    { destruct (N.eqb_spec (224 + c / 4096) 224); apply N.leb_le; dlia. }
    assert (Hhi : (128 + (c / 64) mod 64
                     <=? (if 224 + c / 4096 =? 237 then 159 else 191)) = true).
    { destruct (N.eqb_spec (224 + c / 4096) 237); apply N.leb_le; dlia. }
    rewrite Hlo, Hhi. cbn [andb]. rewrite decode_3 by lia. reflexivity. }
  assert (H4 : c < 1114112) by lia.
  replace (c <? 1114112) with true by (symmetry; apply N.ltb_lt; lia).
  eexists. split; [reflexivity|].
  rewrite byte_1_of_4, !trail_byte by assumption.
  rewrite shiftr_6, shiftr_12.
  split; [repeat constructor; unfold octet; dlia|].
  cbn [app decode].
  rewrite !continuation_trail, !trail_bits.
  replace (240 + c / 262144 <? 128) with false by (symmetry; apply N.ltb_ge; dlia).
  replace (194 <=? 240 + c / 262144) with true by (symmetry; apply N.leb_le; dlia).
  replace (240 + c / 262144 <=? 223) with false by (symmetry; apply N.leb_gt; dlia).
  replace (224 <=? 240 + c / 262144) with true by (symmetry; apply N.leb_le; dlia).
  replace (240 + c / 262144 <=? 239) with false by (symmetry; apply N.leb_gt; dlia).
  replace (240 <=? 240 + c / 262144) with true by (symmetry; apply N.leb_le; dlia).
  replace (240 + c / 262144 <=? 244) with true by (symmetry; apply N.leb_le; dlia).
  cbn [andb].
  assert (Hlo : ((if 240 + c / 262144 =? 240 then 144 else 128)
                   <=? 128 + (c / 4096) mod 64) = true).
  { destruct (N.eqb_spec (240 + c / 262144) 240); apply N.leb_le; dlia. }
  assert (Hhi : (128 + (c / 4096) mod 64
                   <=? (if 240 + c / 262144 =? 244 then 143 else 191)) = true).
  { destruct (N.eqb_spec (240 + c / 262144) 244); apply N.leb_le; dlia. }
  rewrite Hlo, Hhi. cbn [andb]. rewrite decode_4 by lia. reflexivity.
Qed.

Theorem decode_encode s :
  Forall scalar s ->
  exists bs, encode s = Ok bs /\ Forall octet bs /\ decode bs = Ok s.
Proof.
  induction 1 as [|c s Hc _ (bs & Henc & Hoct & Hdec)].
  - exists []. repeat split; constructor.
  - destruct (decode_encode_code_point c bs Hc) as (cs & Hcs & Hcoct & Hcdec).
    exists (cs ++ bs). cbn [encode]. rewrite Hcs, Henc. cbn.
    split; [reflexivity|]. split; [apply Forall_app; auto|].
    rewrite Hcdec, Hdec. reflexivity.
Qed.

End Utf8Facts.

(** * The monad *)

Lemma bind_ok {A B} (m : M A) (k : A -> M B) s a s' :
  m s = (Ok a, s') -> bind m k s = k a s'.
Proof. intros H. unfold bind. rewrite H. reflexivity. Qed.

Lemma bind_raise {A B} (m : M A) (k : A -> M B) s e s' :
  m s = (Raise e, s') -> bind m k s = (Raise e, s').
Proof. intros H. unfold bind. rewrite H. reflexivity. Qed.

Lemma getitem_ok {V} (d : gmap str V) key v s :
  d !! key = Some v -> getitem d key s = (Ok v, s).
Proof. intros H. unfold getitem. rewrite H. reflexivity. Qed.

Lemma getitem_raise {V} (d : gmap str V) key s :
  d !! key = None -> getitem d key s = (Raise (KeyError key), s).
Proof. intros H. unfold getitem. rewrite H. reflexivity. Qed.

Section EmitsOnly.
Context (P : event -> bool).

Lemma emits_only_ret {A} (a : A) : emits_only P (ret a).
Proof. intros s. exists []. cbn. rewrite app_nil_r. auto. Qed.

Lemma emits_only_raise {A} e : emits_only P (@raise A e).
Proof. intros s. exists []. cbn. rewrite app_nil_r. auto. Qed.

Lemma emits_only_lift {A} (r : result A) : emits_only P (lift r).
Proof. intros s. exists []. cbn. rewrite app_nil_r. auto. Qed.

Lemma emits_only_emit e : P e = true -> emits_only P (emit e).
Proof. intros He s. exists [e]. cbn. rewrite He. auto. Qed.

Lemma emits_only_bind {A B} (m : M A) (k : A -> M B) :
  emits_only P m -> (forall a, emits_only P (k a)) -> emits_only P (bind m k).
Proof.
  intros Hm Hk s. unfold bind.
  destruct (Hm s) as (evs & Htr & Hall).
  destruct (m s) as [[a|e] s1]; cbn in Htr.
  - destruct (Hk a s1) as (evs' & Htr' & Hall').
    exists (evs ++ evs'). rewrite Htr', Htr, app_assoc, forallb_app, Hall, Hall'. auto.
  - exists evs. auto.
Qed.

Lemma emits_only_read_state {A} (f : State -> result A) :
  emits_only P (read_state f).
Proof. intros s. exists []. cbn. rewrite app_nil_r. auto. Qed.

End EmitsOnly.

Create HintDb events.
#[export] Hint Resolve emits_only_ret emits_only_raise emits_only_lift
  emits_only_read_state : events.

Ltac emits_only_step :=
  first
    [ apply emits_only_bind; [|intros ?]
    | apply emits_only_emit; reflexivity
    | solve [auto with events]
    | match goal with
      | |- emits_only _ (match ?x with _ => _ end) => destruct x
      | |- emits_only _ (if ?x then _ else _) => destruct x
      end ].

(** * Session acquisition *)

Section Session.
Variable w : World.

Lemma os_path_exists_events P path :
  P (PathExists path) = true -> emits_only P (os_path_exists path).
Proof. intros HP s. exists [PathExists path]. cbn. rewrite HP. auto. Qed.

Lemma write_token_events P path c :
  P (WriteTokenFile path) = true -> emits_only P (write_token w path c).
Proof.
  intros HP. unfold write_token.
  apply emits_only_bind; [apply emits_only_emit; exact HP|]. intros _.
  apply emits_only_bind; [apply emits_only_lift|]. intros _.
  intros s. exists []. rewrite app_nil_r. destruct (file_write w path); auto.
Qed.

Lemma from_authorized_user_file_events P path :
  P (ReadTokenFile path) = true -> emits_only P (from_authorized_user_file path).
Proof.
  intros HP. unfold from_authorized_user_file.
  apply emits_only_bind; [apply emits_only_emit; exact HP|]. intros _.
  apply emits_only_read_state.
Qed.

Lemma from_client_secrets_file_events P path :
  P (ReadClientSecrets path) = true -> emits_only P (from_client_secrets_file path).
Proof.
  intros HP. unfold from_client_secrets_file.
  apply emits_only_bind; [apply emits_only_emit; exact HP|]. intros _.
  apply emits_only_read_state.
Qed.

Lemma get_gmail_service_no_mail_call :
  emits_only (fun e => negb (is_mail_call e)) (get_gmail_service w).
Proof.
  unfold get_gmail_service, renew, interactive_authorization, refresh,
    run_local_server, build.
  repeat first
    [ apply os_path_exists_events; reflexivity
    | apply write_token_events; reflexivity
    | apply from_authorized_user_file_events; reflexivity
    | apply from_client_secrets_file_events; reflexivity
    | emits_only_step ].
Qed.

End Session.

(** * The dispatcher and the tool registry *)

Lemma call_tool_session_failed (w : World) (ab : MIMEText -> result bytes)
    (name : str) (args : gmap str pyval) (s : State) e s' :
  get_gmail_service w s = (Raise e, s') ->
  call_tool w ab name args s = (Raise e, s').
Proof. intros H. unfold call_tool. apply bind_raise. exact H. Qed.

Lemma not_registered name :
  name ∉ registered_names ->
  name <> lit "gmail_search" /\ name <> lit "gmail_read"
  /\ name <> lit "gmail_send" /\ name <> lit "gmail_list_labels".
Proof.
  intros Hn. repeat split; intros ->; apply Hn; vm_compute;
    repeat first [apply list_elem_of_here | apply list_elem_of_further].
Qed.

(** C1 (as amended): a call naming a tool outside the registry first
    acquires the session; it fails with the session's error if there is
    one, and with [ValueError "Unknown tool: <name>"] otherwise, in the
    state the session acquisition left; no call on the mail service is
    made. *)
Theorem C1_unknown_tool_rejected_after_session
    (w : World) (ab : MIMEText -> result bytes)
    (name : str) (args : gmap str pyval) (s : State) :
  name ∉ registered_names ->
  call_tool w ab name args s =
    (match get_gmail_service w s with
     | (Ok _, s') => (Raise (ValueError (lit "Unknown tool: " ++ name)), s')
     | (Raise e, s') => (Raise e, s')
     end)
  /\ exists evs,
       trace (snd (call_tool w ab name args s)) = trace s ++ evs
       /\ forallb (fun e => negb (is_mail_call e)) evs = true.
Proof.
  intros Hn. apply not_registered in Hn as (H1 & H2 & H3 & H4).
  assert (Hcall : call_tool w ab name args s =
    (match get_gmail_service w s with
     | (Ok _, s') => (Raise (ValueError (lit "Unknown tool: " ++ name)), s')
     | (Raise e, s') => (Raise e, s')
     end)).
  { unfold call_tool, bind.
    destruct (get_gmail_service w s) as [[service|e] s']; [|reflexivity].
    rewrite !bool_decide_eq_false_2 by assumption. reflexivity. }
  split; [exact Hcall|].
  rewrite Hcall.
  destruct (get_gmail_service_no_mail_call w s) as (evs & Htr & Hall).
  exists evs. split; [|exact Hall].
  destruct (get_gmail_service w s) as [[service|e] s']; exact Htr.
Qed.

Lemma C1_unknown_tool_rejected_after_session_witness :
  (lit "gmail_delete" ∉ registered_names)
  /\ fst (call_tool Scenario.world Scenario.serialise (lit "gmail_delete") ∅
            Scenario.logged_in)
     = Raise (ValueError (lit "Unknown tool: gmail_delete")).
Proof.
  assert (Hn : lit "gmail_delete" ∉ registered_names).
  { intros Hin. vm_compute in Hin.
    repeat (apply elem_of_cons in Hin as [Hin|Hin]; [discriminate Hin|]).
    inversion Hin. }
  split; [exact Hn|].
  rewrite (proj1 (C1_unknown_tool_rejected_after_session
                    Scenario.world Scenario.serialise _ ∅ Scenario.logged_in Hn)).
  vm_compute. reflexivity.
Defined.

(** C1 (as stated) fails: with an expired token on disk the unknown name
    is rejected only after the token file was read and a refresh round
    trip was made; with no token and no client-secrets file the call fails
    with [FileNotFoundError], not [ValueError]. *)
Lemma C1_counterexample :
  ~ rejected_before_any_effect Scenario.world Scenario.serialise
      (lit "gmail_delete") ∅ Scenario.token_expired
  /\ trace (snd (call_tool Scenario.world Scenario.serialise
                   (lit "gmail_delete") ∅ Scenario.token_expired))
     = [PathExists (lit "token.json"); ReadTokenFile (lit "token.json");
        Refresh; WriteTokenFile (lit "token.json"); Build]
  /\ fst (call_tool Scenario.world Scenario.serialise
            (lit "gmail_delete") ∅ Scenario.fresh_install)
     = Raise (FileNotFoundError
                (lit "Credentials file not found at credentials.json. Please download it from Google Cloud Console.")).
Proof.
  split; [|split].
  - intros [msg H].
    apply (f_equal (fun r => trace (snd r))) in H.
    vm_compute in H. discriminate H.
  - vm_compute. reflexivity.
  - vm_compute. reflexivity.
Qed.

(** C4: with neither a token file nor a client-secrets file, session
    acquisition raises [FileNotFoundError] after two file-system probes
    and nothing else: no refresh, no authorization exchange, no call on
    the mail service. *)
Theorem C4_no_token_no_credentials (w : World) (s : State) :
  fs s !! token_path w = None ->
  fs s !! credentials_path w = None ->
  get_gmail_service w s =
    (Raise (FileNotFoundError (credentials_not_found (credentials_path w))),
     mkState (fs s)
       (trace s ++ [PathExists (token_path w); PathExists (credentials_path w)]))
  /\ forallb (fun e => negb (is_network e))
       [PathExists (token_path w); PathExists (credentials_path w)] = true.
Proof.
  intros Htok Hcred. split; [|reflexivity].
  unfold get_gmail_service, renew, interactive_authorization, os_path_exists, bind.
  cbn [fs trace]. rewrite Htok. cbn [ret fs trace]. rewrite Hcred.
  cbn. rewrite <- app_assoc. reflexivity.
Qed.

Lemma C4_no_token_no_credentials_witness :
  get_gmail_service Scenario.world Scenario.fresh_install =
    (Raise (FileNotFoundError
              (credentials_not_found (credentials_path Scenario.world))),
     mkState ∅ [PathExists (lit "token.json"); PathExists (lit "credentials.json")]).
Proof.
  apply (C4_no_token_no_credentials Scenario.world Scenario.fresh_install);
    reflexivity.
Defined.

(** * The handlers *)

Lemma search_block_lines msg hs :
  search_block msg (headers_dict hs) = join nl (search_lines msg hs).
Proof.
  unfold search_block, search_lines. cbn [join].
  rewrite <- !app_assoc. reflexivity.
Qed.

Lemma read_header_block_lines hs :
  read_header_block (headers_dict hs) = join nl (read_lines hs) ++ nl.
Proof.
  unfold read_header_block, read_lines. cbn [join].
  rewrite <- !app_assoc. reflexivity.
Qed.

Section Handlers.
Variable w : World.
Variable service : Service.

Lemma for_each_metadata refs (m : MessageRef -> Message) :
  (forall ref, ref ∈ refs ->
     messages_get w (PyStr (ref_id ref)) (lit "metadata") = Ok (m ref)) ->
  forall s,
    for_each (fun msg =>
        msg_data <~ execute_messages_get w service (PyStr (ref_id msg))
                      (lit "metadata") ;;
        ret (search_block msg (headers_dict (headers (payload msg_data)))))
      refs s
    = (Ok ((fun ref => join nl (search_lines ref (headers (payload (m ref)))))
             <$> refs),
       mkState (fs s) (trace s ++ metadata_gets refs)).
Proof.
  induction refs as [|ref refs IH]; intros Hget s.
  - cbn. rewrite app_nil_r. destruct s; reflexivity.
  - cbn [for_each].
    assert (Hhead := Hget ref (list_elem_of_here _ _)).
    unfold bind at 1. unfold execute_messages_get at 1.
    unfold bind at 1, emit, lift. rewrite Hhead. cbn [ret bind].
    unfold bind at 1. rewrite IH
      by (intros r Hr; apply Hget, list_elem_of_further, Hr).
    cbn [ret fs trace fmap list_fmap metadata_gets].
    rewrite search_block_lines, <- app_assoc. reflexivity.
Qed.

Lemma search_emails_run (args : gmap str pyval) (s : State)
    (query : pyval) (resp : ListMessagesResponse) (m : MessageRef -> Message) :
  args !! lit "query" = Some query ->
  messages_list w query (dict_get args (lit "max_results") (PyInt 10)) = Ok resp ->
  (forall ref, ref ∈ default [] (messages resp) ->
     messages_get w (PyStr (ref_id ref)) (lit "metadata") = Ok (m ref)) ->
  _search_emails w service args s =
    (Ok [mkTextContent (lit "text")
           (match default [] (messages resp) with
            | [] => lit "No messages found."
            | refs =>
                join nl ((fun ref =>
                            join nl (search_lines ref (headers (payload (m ref)))))
                           <$> refs)
            end)],
     mkState (fs s)
       (trace s ++ MessagesList query (dict_get args (lit "max_results") (PyInt 10))
                   :: metadata_gets (default [] (messages resp)))).
Proof.
  intros Hq Hlist Hget. unfold _search_emails.
  rewrite (bind_ok _ _ s query s) by (apply getitem_ok, Hq).
  unfold execute_messages_list. unfold bind at 1. unfold bind at 1, emit, lift.
  rewrite Hlist. cbn [fs trace].
  destruct (default [] (messages resp)) as [|ref refs] eqn:Hrefs.
  - reflexivity.
  - unfold bind. rewrite (for_each_metadata (ref :: refs) m Hget).
    cbn [ret fs trace]. rewrite <- app_assoc. reflexivity.
Qed.

End Handlers.

(** C3: [list_tools] returns the four tools [gmail_search], [gmail_read],
    [gmail_send], [gmail_list_labels] in this order, each with a
    description that is not empty; the schemas declare [query] required
    and [max_results] optional with default 10, [message_id] required,
    [to], [subject] and [body] required, and no field for the last tool. *)
Theorem C3_list_tools :
  name <$> list_tools
  = [lit "gmail_search"; lit "gmail_read"; lit "gmail_send";
     lit "gmail_list_labels"]
  /\ Forall (fun t => description t <> []) list_tools
  /\ field_names <$> list_tools
     = [[lit "query"; lit "max_results"]; [lit "message_id"];
        [lit "to"; lit "subject"; lit "body"]; []]
  /\ required_fields <$> list_tools
     = [[lit "query"]; [lit "message_id"];
        [lit "to"; lit "subject"; lit "body"]; []]
  /\ optional_fields <$> list_tools = [[lit "max_results"]; []; []; []]
  /\ (fun t => field_default t (lit "max_results")) <$> list_tools
     = [Some (PyInt 10); None; None; None]
  /\ (fun t => (fun f => field_default t f) <$> required_fields t) <$> list_tools
     = [[None]; [None]; [None; None; None]; []].
Proof.
  repeat split; try (vm_compute; reflexivity).
  repeat constructor; discriminate.
Qed.




(** C6: with no label the answer is exactly ["No labels found."]; otherwise
    it is the line ["Gmail Labels:"], the line ["---"] and one line
    ["- {name} (ID: {id})"] per label, in the order of the listing. *)
Theorem C6_list_labels (w : World) (service : Service) (s : State)
    (resp : ListLabelsResponse) :
  labels_list w = Ok resp ->
  _list_labels w service s =
    (Ok [mkTextContent (lit "text")
           (match default [] (labels resp) with
            | [] => lit "No labels found."
            | ls =>
                join nl
                  (lit "Gmail Labels:" :: lit "---"
                   :: ((fun l => lit "- " ++ label_name l ++ lit " (ID: "
                                 ++ label_id l ++ lit ")") <$> ls))
            end)],
     mkState (fs s) (trace s ++ [LabelsList])).
Proof.
  intros Hlist. unfold _list_labels, execute_labels_list.
  unfold bind at 1. unfold bind at 1, emit, lift. rewrite Hlist. cbn [fs trace].
  destruct (default [] (labels resp)); reflexivity.
Qed.

Lemma C6_list_labels_witness :
  _list_labels Scenario.world Scenario.service Scenario.logged_in
  = (Ok [mkTextContent (lit "text")
           (lit "Gmail Labels:" ++ nl ++ lit "---" ++ nl
            ++ lit "- Work (ID: Label_1)" ++ nl ++ lit "- INBOX (ID: INBOX)")],
     mkState (fs Scenario.logged_in) [LabelsList])
  /\ _list_labels Scenario.world_empty Scenario.service Scenario.logged_in
     = (Ok [mkTextContent (lit "text") (lit "No labels found.")],
        mkState (fs Scenario.logged_in) [LabelsList]).
Proof.
  split.
  - exact (C6_list_labels Scenario.world Scenario.service Scenario.logged_in
             _ eq_refl).
  - exact (C6_list_labels Scenario.world_empty Scenario.service
             Scenario.logged_in _ eq_refl).
Defined.

(** The lines of a plain message, and the message read back. *)
Section EmailFacts.
Local Open Scope N_scope.












End EmailFacts.




(** * Reading a message *)

Lemma decode_body_ok d bs t s :
  Base64.urlsafe_b64decode d = Ok bs -> Utf8.decode bs = Ok t ->
  decode_body d s = (Ok t, s).
Proof. intros Hb Hu. unfold decode_body, lift. rewrite Hb. cbn. rewrite Hu. reflexivity. Qed.

Lemma scan_parts_skip pre ps s :
  Forall (fun q => mimeType q <> lit "text/plain") pre ->
  scan_parts (pre ++ ps) s = scan_parts ps s.
Proof.
  induction 1 as [|q pre Hq _ IH]; [reflexivity|].
  cbn [app scan_parts]. rewrite bool_decide_eq_false_2 by exact Hq. exact IH.
Qed.

Lemma scan_parts_first pre part post d bs t s :
  Forall (fun q => mimeType q <> lit "text/plain") pre ->
  mimeType part = lit "text/plain" ->
  body part = Some (mkBody (Some d)) ->
  Base64.urlsafe_b64decode d = Ok bs -> Utf8.decode bs = Ok t ->
  scan_parts (pre ++ part :: post) s = (Ok t, s).
Proof.
  intros Hpre Hmime Hbody Hb Hu. rewrite scan_parts_skip by exact Hpre.
  cbn [scan_parts]. rewrite bool_decide_eq_true_2 by exact Hmime.
  rewrite Hbody. cbn [bind ret data].
  apply (decode_body_ok d bs t s Hb Hu).
Qed.

Lemma scan_parts_none ps s :
  Forall (fun q => mimeType q <> lit "text/plain") ps ->
  scan_parts ps s = (Ok [], s).
Proof.
  intros Hps. rewrite <- (app_nil_r ps). rewrite scan_parts_skip by exact Hps.
  reflexivity.
Qed.

(** A part of type text/plain that carries no data (an attachment, whose
    body holds an attachment id instead) stops the scan with [KeyError]. *)
Remark scan_parts_plain_without_data pre part post s :
  Forall (fun q => mimeType q <> lit "text/plain") pre ->
  mimeType part = lit "text/plain" ->
  body part = Some (mkBody None) ->
  scan_parts (pre ++ part :: post) s = (Raise (KeyError (lit "data")), s).
Proof.
  intros Hpre Hmime Hbody. rewrite scan_parts_skip by exact Hpre.
  cbn [scan_parts]. rewrite bool_decide_eq_true_2 by exact Hmime.
  rewrite Hbody. reflexivity.
Qed.

Section Read.
Variable w : World.
Variable service : Service.

Lemma read_email_run (args : gmap str pyval) (s : State) (mid : pyval)
    (msg : Message) (b : str) :
  args !! lit "message_id" = Some mid ->
  messages_get w mid (lit "full") = Ok msg ->
  (forall s0, extract_body (payload msg) s0 = (Ok b, s0)) ->
  _read_email w service args s =
    (Ok [mkTextContent (lit "text")
           (join nl (read_lines (headers (payload msg))) ++ nl ++ nl ++ b)],
     mkState (fs s) (trace s ++ [MessagesGet mid (lit "full")])).
Proof.
  intros Hid Hget Hbody. unfold _read_email.
  rewrite (bind_ok _ _ s mid s) by (apply getitem_ok, Hid).
  unfold execute_messages_get. unfold bind at 1. unfold bind at 1, emit, lift.
  rewrite Hget. unfold bind. rewrite Hbody. cbn [ret fs trace].
  rewrite read_header_block_lines, <- app_assoc. reflexivity.
Qed.

End Read.

(** X25: the body [gmail_read] shows is, for a payload with a parts array,
    the decoded data of the first part of type [text/plain] among the
    parts themselves (parts of parts are not looked at) and empty when
    there is none; for a payload without parts array it is the decoded
    data of the payload's own body, and empty when there is no body or no
    data.  With an empty body the call still succeeds. *)
Theorem read_body_cases (w : World) (service : Service) (args : gmap str pyval)
    (s : State) (mid : pyval) (msg : Message) :
  let answer (b : str) :=
    (Ok [mkTextContent (lit "text")
           (join nl (read_lines (headers (payload msg))) ++ nl ++ nl ++ b)],
     mkState (fs s) (trace s ++ [MessagesGet mid (lit "full")])) in
  let not_plain (q : MessagePart) := mimeType q <> lit "text/plain" in
  args !! lit "message_id" = Some mid ->
  messages_get w mid (lit "full") = Ok msg ->
  (forall pre part post d bs t,
      parts (payload msg) = Some (pre ++ part :: post) ->
      Forall not_plain pre ->
      mimeType part = lit "text/plain" ->
      body part = Some (mkBody (Some d)) ->
      Base64.urlsafe_b64decode d = Ok bs -> Utf8.decode bs = Ok t ->
      _read_email w service args s = answer t)
  /\ (forall ps,
        parts (payload msg) = Some ps ->
        Forall not_plain ps ->
        _read_email w service args s = answer [])
  /\ (forall d bs t,
        parts (payload msg) = None ->
        body (payload msg) = Some (mkBody (Some d)) ->
        Base64.urlsafe_b64decode d = Ok bs -> Utf8.decode bs = Ok t ->
        _read_email w service args s = answer t)
  /\ (parts (payload msg) = None ->
      body (payload msg) = None \/ body (payload msg) = Some (mkBody None) ->
      _read_email w service args s = answer []).
Proof.
  intros answer not_plain Hid Hget. repeat split.
  - intros pre part post d bs t Hparts Hpre Hmime Hbody Hb Hu.
    apply (read_email_run w service args s mid msg t Hid Hget).
    intros s0. unfold extract_body. rewrite Hparts.
    apply (scan_parts_first pre part post d bs t s0 Hpre Hmime Hbody Hb Hu).
  - intros ps Hparts Hps.
    apply (read_email_run w service args s mid msg [] Hid Hget).
    intros s0. unfold extract_body. rewrite Hparts.
    apply scan_parts_none, Hps.
  - intros d bs t Hparts Hbody Hb Hu.
    apply (read_email_run w service args s mid msg t Hid Hget).
    intros s0. unfold extract_body. rewrite Hparts, Hbody. cbn [data].
    apply (decode_body_ok d bs t s0 Hb Hu).
  - intros Hparts Hbody.
    apply (read_email_run w service args s mid msg [] Hid Hget).
    intros s0. unfold extract_body. rewrite Hparts.
    destruct Hbody as [-> | ->]; reflexivity.
Qed.

(** The message whose only text/plain part lies two levels deep reads with
    an empty body. *)
Lemma read_body_cases_witness :
  _read_email Scenario.world Scenario.service
    {[ lit "message_id" := PyStr (lit "m2") ]} Scenario.logged_in
  = (Ok [mkTextContent (lit "text")
           (lit "From: Unknown" ++ nl ++ lit "To: Unknown" ++ nl
            ++ lit "Subject: No Subject" ++ nl ++ lit "Date: Unknown" ++ nl ++ nl)],
     mkState (fs Scenario.logged_in) [MessagesGet (PyStr (lit "m2")) (lit "full")]).
Proof.
  refine (proj1 (proj2 (read_body_cases Scenario.world Scenario.service
            {[ lit "message_id" := PyStr (lit "m2") ]} Scenario.logged_in
            (PyStr (lit "m2")) Scenario.message_nested eq_refl eq_refl))
          _ eq_refl _).
  repeat constructor. discriminate.
Defined.

(** C2 (the defect): a message whose only text/plain part is an attachment
    has no plain text to show, and the same body without data makes the
    top-level path answer with an empty body; but the scan of the parts
    subscripts [data] without looking for it, and reading the message
    fails with [KeyError]. *)
Lemma C2_plain_part_without_data_raises :
  _read_email Scenario.world_odd Scenario.service
    {[ lit "message_id" := PyStr (lit "m4") ]} Scenario.logged_in
  = (Raise (KeyError (lit "data")),
     mkState (fs Scenario.logged_in) [MessagesGet (PyStr (lit "m4")) (lit "full")])
  /\ extract_body (mkPart (lit "text/plain") [] (Some (mkBody None)) None)
       Scenario.logged_in
     = (Ok [], Scenario.logged_in).
Proof. split; reflexivity. Qed.

(** C8: a message without parts array whose body data is the URL-safe
    base64 encoding of the UTF-8 encoding of a text reads with exactly
    this text as its body. *)
Theorem C8_read_round_trip (text : str) :
  Forall Utf8.scalar text ->
  exists encoded,
    Utf8.encode text = Ok encoded
    /\ forall (w : World) (service : Service) (args : gmap str pyval)
         (s : State) (mid : pyval) (msg : Message),
         args !! lit "message_id" = Some mid ->
         messages_get w mid (lit "full") = Ok msg ->
         parts (payload msg) = None ->
         body (payload msg)
           = Some (mkBody (Some (Base64.urlsafe_b64encode encoded))) ->
         _read_email w service args s =
           (Ok [mkTextContent (lit "text")
                  (join nl (read_lines (headers (payload msg)))
                   ++ nl ++ nl ++ text)],
            mkState (fs s) (trace s ++ [MessagesGet mid (lit "full")])).
Proof.
  intros Htext.
  destruct (decode_encode text Htext) as (encoded & Henc & Hoct & Hdec).
  exists encoded. split; [exact Henc|].
  intros w service args s mid msg Hid Hget Hparts Hbody.
  apply (read_email_run w service args s mid msg text Hid Hget).
  intros s0. unfold extract_body. rewrite Hparts, Hbody. cbn [data].
  apply (decode_body_ok _ encoded text s0);
    [apply urlsafe_b64decode_b64encode, Hoct | exact Hdec].
Qed.

Lemma C8_read_round_trip_witness :
  _read_email Scenario.world Scenario.service
    {[ lit "message_id" := PyStr (lit "m3") ]} Scenario.logged_in
  = (Ok [mkTextContent (lit "text")
           (lit "From: Unknown" ++ nl ++ lit "To: bob@example.com" ++ nl
            ++ lit "Subject: No Subject" ++ nl ++ lit "Date: Unknown" ++ nl ++ nl
            ++ Scenario.text_mixed)],
     mkState (fs Scenario.logged_in) [MessagesGet (PyStr (lit "m3")) (lit "full")]).
Proof.
  assert (Hscalar : Forall Utf8.scalar Scenario.text_mixed).
  { unfold Scenario.text_mixed, Utf8.scalar. repeat constructor; lia. }
  destruct (C8_read_round_trip Scenario.text_mixed Hscalar)
    as (encoded & Henc & Hread).
  vm_compute in Henc. injection Henc as <-.
  apply (Hread Scenario.world Scenario.service
           {[ lit "message_id" := PyStr (lit "m3") ]} Scenario.logged_in
           (PyStr (lit "m3")) Scenario.message_mixed); reflexivity.
Defined.

(** * Missing arguments and missing headers *)

Lemma headers_dict_lookup_None (hs : list Header) (key : str) :
  key ∉ header_name <$> hs -> headers_dict hs !! key = None.
Proof.
  unfold headers_dict.
  assert (H : forall (d : gmap str str),
             d !! key = None -> key ∉ header_name <$> hs ->
             foldl (fun d h => <[header_name h := header_value h]> d) d hs !! key
             = None).
  { induction hs as [|h hs IH]; intros d Hd Hn; [exact Hd|].
    cbn [foldl]. apply IH.
    - rewrite lookup_insert_ne; [exact Hd|].
      intros Heq. apply Hn. cbn. rewrite Heq. apply list_elem_of_here.
    - intros Hin. apply Hn. cbn. apply list_elem_of_further, Hin. }
  apply H. apply lookup_empty.
Qed.

Lemma dict_get_missing_header (hs : list Header) (key dflt : str) :
  key ∉ header_name <$> hs -> dict_get (headers_dict hs) key dflt = dflt.
Proof.
  intros Hn. unfold dict_get. rewrite headers_dict_lookup_None by exact Hn.
  reflexivity.
Qed.

(** C9 (as amended): a call of a registered tool whose arguments lack one of
    the fields the tool's schema requires fails, once the session is
    acquired and, for [gmail_send], when the body that is there is a
    string the message can be built from, with [KeyError] on a missing
    required field, before any call on the mail service: the state is the
    one session acquisition left. *)
Theorem C9_missing_required_field (w : World)
    (as_bytes : MIMEText -> result bytes) (tool : Tool)
    (args : gmap str pyval) (s s' : State) (service : Service) :
  tool ∈ list_tools ->
  get_gmail_service w s = (Ok service, s') ->
  (forall v, args !! lit "body" = Some v ->
     exists t, v = PyStr t /\ Forall Utf8.scalar t) ->
  (exists field, field ∈ required_fields tool /\ args !! field = None) ->
  exists field,
    field ∈ required_fields tool /\ args !! field = None
    /\ call_tool w as_bytes (name tool) args s = (Raise (KeyError field), s').
Proof.
  intros Htool Hsession Hbody (field & Hfield & Hnone).
  unfold call_tool. rewrite (bind_ok _ _ s service s' Hsession).
  unfold list_tools in Htool.
  repeat (apply elem_of_cons in Htool as [->|Htool]); [| | | |inversion Htool].
  - (* gmail_search *)
    apply list_elem_of_singleton in Hfield as ->.
    exists (lit "query"). split; [apply list_elem_of_here|]. split; [exact Hnone|].
    cbn [name]. rewrite bool_decide_eq_true_2 by reflexivity.
    unfold _search_emails. apply bind_raise, getitem_raise, Hnone.
  - (* gmail_read *)
    apply list_elem_of_singleton in Hfield as ->.
    exists (lit "message_id"). split; [apply list_elem_of_here|].
    split; [exact Hnone|].
    cbn [name]. rewrite bool_decide_eq_false_2 by discriminate.
    rewrite bool_decide_eq_true_2 by reflexivity.
    unfold _read_email. apply bind_raise, getitem_raise, Hnone.
  - (* gmail_send *)
    cbn [name]. rewrite !bool_decide_eq_false_2 by discriminate.
    rewrite bool_decide_eq_true_2 by reflexivity.
    unfold _send_email.
    destruct (args !! lit "body") as [vb|] eqn:Eb.
    2:{ exists (lit "body"). split; [do 2 apply list_elem_of_further; apply list_elem_of_here|].
        split; [exact Eb|]. apply bind_raise, getitem_raise, Eb. }
    destruct (Hbody vb eq_refl) as [tb [-> _]].
    rewrite (bind_ok _ _ s' (PyStr tb) s') by (apply getitem_ok, Eb).
    cbn [MIMEText_init]. unfold bind at 1. cbn [ret].
    destruct (args !! lit "to") as [vt|] eqn:Et.
    2:{ exists (lit "to"). split; [apply list_elem_of_here|].
        split; [exact Et|]. apply bind_raise, getitem_raise, Et. }
    rewrite (bind_ok _ _ s' vt s') by (apply getitem_ok, Et).
    destruct (args !! lit "subject") as [vs|] eqn:Es.
    2:{ exists (lit "subject").
        split; [apply list_elem_of_further, list_elem_of_here|].
        split; [exact Es|]. apply bind_raise, getitem_raise, Es. }
    exfalso.
    change (required_fields _) with [lit "to"; lit "subject"; lit "body"] in Hfield.
    repeat (apply elem_of_cons in Hfield as [->|Hfield]);
      [congruence | congruence | congruence | inversion Hfield].
  - (* gmail_list_labels *)
    inversion Hfield.
Qed.

Lemma C9_missing_required_field_witness :
  exists field,
    field ∈ [lit "to"; lit "subject"; lit "body"]
    /\ call_tool Scenario.world Scenario.serialise (lit "gmail_send")
         {[ lit "to" := PyStr (lit "bob@example.com");
            lit "subject" := PyStr (lit "Hi") ]} Scenario.logged_in
       = (Raise (KeyError field),
          mkState (fs Scenario.logged_in)
            [PathExists (lit "token.json"); ReadTokenFile (lit "token.json");
             Build]).
Proof.
  destruct (C9_missing_required_field Scenario.world Scenario.serialise
              (mkTool (lit "gmail_send") (lit "Send an email through Gmail")
                 (mkInputSchema (lit "object")
                    [ (lit "to", mkProperty (lit "string")
                                   (lit "Recipient email address") None);
                      (lit "subject", mkProperty (lit "string")
                                        (lit "Email subject") None);
                      (lit "body", mkProperty (lit "string")
                                     (lit "Email body content") None) ]
                    (Some [lit "to"; lit "subject"; lit "body"])))
              {[ lit "to" := PyStr (lit "bob@example.com");
                 lit "subject" := PyStr (lit "Hi") ]}
              Scenario.logged_in
              (mkState (fs Scenario.logged_in)
                 [PathExists (lit "token.json"); ReadTokenFile (lit "token.json");
                  Build])
              Scenario.service)
    as (field & Hfield & _ & Hcall).
  - do 2 apply list_elem_of_further. apply list_elem_of_here.
  - reflexivity.
  - intros v Hv. vm_compute in Hv. discriminate Hv.
  - exists (lit "body"). split.
    + do 2 apply list_elem_of_further. apply list_elem_of_here.
    + reflexivity.
  - exists field. split; [exact Hfield | exact Hcall].
Defined.

(** C9 (as stated) fails: a send that lacks [to] and whose body is not a
    string fails with [AttributeError], raised when the message is built
    and before [to] is read; and a search that lacks [query] fails with
    [FileNotFoundError] when no session can be acquired. *)
Lemma C9_counterexample :
  ~ missing_field_raises_key_error Scenario.world Scenario.serialise
      Scenario.tool_send
      {[ lit "subject" := PyStr (lit "Hi"); lit "body" := PyInt 5 ]}
      Scenario.logged_in
  /\ fst (call_tool Scenario.world Scenario.serialise (lit "gmail_send")
            {[ lit "subject" := PyStr (lit "Hi"); lit "body" := PyInt 5 ]}
            Scenario.logged_in)
     = Raise AttributeError
  /\ ~ missing_field_raises_key_error Scenario.world Scenario.serialise
        Scenario.tool_search ∅ Scenario.fresh_install
  /\ fst (call_tool Scenario.world Scenario.serialise (lit "gmail_search") ∅
            Scenario.fresh_install)
     = Raise (FileNotFoundError
                (lit "Credentials file not found at credentials.json. Please download it from Google Cloud Console.")).
Proof.
  split; [|split; [|split]].
  - intros H. destruct H as (field & _ & _ & Hcall).
    + exists (lit "to"). split; [apply list_elem_of_here | reflexivity].
    + vm_compute in Hcall. discriminate Hcall.
  - vm_compute. reflexivity.
  - intros H. destruct H as (field & _ & _ & Hcall).
    + exists (lit "query"). split; [apply list_elem_of_here | reflexivity].
    + vm_compute in Hcall. discriminate Hcall.
  - vm_compute. reflexivity.
Qed.

(** C10: whatever headers a message carries, [gmail_search] and
    [gmail_read] answer; in a block of [gmail_search] the line of a missing
    [From] or [Date] header reads [Unknown] and that of a missing [Subject]
    reads [No Subject]; [gmail_read] does the same and shows [Unknown] for
    a missing [To] as well. *)
Theorem C10_missing_headers (w : World) (service : Service)
    (args : gmap str pyval) (s : State) :
  let lacks (hs : list Header) (key : str) := key ∉ header_name <$> hs in
  (forall query resp (m : MessageRef -> Message),
      args !! lit "query" = Some query ->
      messages_list w query (dict_get args (lit "max_results") (PyInt 10))
        = Ok resp ->
      (forall ref, ref ∈ default [] (messages resp) ->
         messages_get w (PyStr (ref_id ref)) (lit "metadata") = Ok (m ref)) ->
      default [] (messages resp) <> [] ->
      fst (_search_emails w service args s) =
        Ok [mkTextContent (lit "text")
              (join nl ((fun ref =>
                           join nl (search_lines ref (headers (payload (m ref)))))
                          <$> default [] (messages resp)))])
  /\ (forall mid msg b,
        args !! lit "message_id" = Some mid ->
        messages_get w mid (lit "full") = Ok msg ->
        (forall s0, extract_body (payload msg) s0 = (Ok b, s0)) ->
        fst (_read_email w service args s) =
          Ok [mkTextContent (lit "text")
                (join nl (read_lines (headers (payload msg))) ++ nl ++ nl ++ b)])
  /\ (forall ref hs,
        (lacks hs (lit "From") ->
         search_lines ref hs !! 1%nat = Some (lit "From: Unknown"))
        /\ (lacks hs (lit "Subject") ->
            search_lines ref hs !! 2%nat = Some (lit "Subject: No Subject"))
        /\ (lacks hs (lit "Date") ->
            search_lines ref hs !! 3%nat = Some (lit "Date: Unknown")))
  /\ (forall hs,
        (lacks hs (lit "From") ->
         read_lines hs !! 0%nat = Some (lit "From: Unknown"))
        /\ (lacks hs (lit "To") ->
            read_lines hs !! 1%nat = Some (lit "To: Unknown"))
        /\ (lacks hs (lit "Subject") ->
            read_lines hs !! 2%nat = Some (lit "Subject: No Subject"))
        /\ (lacks hs (lit "Date") ->
            read_lines hs !! 3%nat = Some (lit "Date: Unknown"))).
Proof.
  intros lacks. split; [|split; [|split]].
  - intros query resp m Hq Hlist Hget Hne.
    rewrite (search_emails_run w service args s query resp m Hq Hlist Hget).
    destruct (default [] (messages resp)); [contradiction|reflexivity].
  - intros mid msg b Hid Hget Hbody.
    rewrite (read_email_run w service args s mid msg b Hid Hget Hbody).
    reflexivity.
  - intros ref hs. unfold search_lines. cbn [lookup list_lookup].
    repeat split; intros Hn; rewrite dict_get_missing_header by exact Hn;
      reflexivity.
  - intros hs. unfold read_lines. cbn [lookup list_lookup].
    repeat split; intros Hn; rewrite dict_get_missing_header by exact Hn;
      reflexivity.
Qed.

Lemma C10_missing_headers_witness :
  fst (_search_emails Scenario.world Scenario.service
         {[ lit "query" := PyStr (lit "is:unread") ]} Scenario.logged_in)
  = Ok [mkTextContent (lit "text")
          (lit "ID: m1" ++ nl ++ lit "From: alice@example.com" ++ nl
           ++ lit "Subject: Lunch" ++ nl ++ lit "Date: Unknown" ++ nl
           ++ lit "---")]
  /\ read_lines (headers (payload Scenario.message_mixed)) !! 0%nat
     = Some (lit "From: Unknown").
Proof.
  pose proof (C10_missing_headers Scenario.world Scenario.service
                {[ lit "query" := PyStr (lit "is:unread") ]} Scenario.logged_in)
    as (Hsearch & _ & _ & Hread).
  split.
  - refine (Hsearch (PyStr (lit "is:unread"))
              (mkListMessages (Some [mkMessageRef (lit "m1")]))
              (fun _ => Scenario.message_plain) eq_refl eq_refl _ _).
    + intros ref Href. apply list_elem_of_singleton in Href as ->. reflexivity.
    + discriminate.
  - apply (proj1 (Hread (headers (payload Scenario.message_mixed)))).
    intros Hin. apply list_elem_of_singleton in Hin. discriminate Hin.
Defined.

(** * Session acquisition, case by case *)

Section SessionCases.
Variable w : World.

(** The interactive branch, started with the trace [t]. *)
Lemma interactive_authorization_cases (f : gmap str File) (t : list event) :
  let cp := credentials_path w in
  interactive_authorization w cp (mkState f t) =
    match f !! cp with
    | None =>
        (Raise (FileNotFoundError (credentials_not_found cp)),
         mkState f (t ++ [PathExists cp]))
    | Some ClientSecretsFile =>
        match authorization_flow w with
        | Ok c =>
            (Ok c, mkState f (t ++ [PathExists cp; ReadClientSecrets cp;
                                    RunLocalServer]))
        | Raise e =>
            (Raise e, mkState f (t ++ [PathExists cp; ReadClientSecrets cp;
                                       RunLocalServer]))
        end
    | Some _ =>
        (Raise LibraryError,
         mkState f (t ++ [PathExists cp; ReadClientSecrets cp]))
    end.
Proof.
  intros cp. unfold interactive_authorization, os_path_exists,
    from_client_secrets_file, run_local_server, read_state, emit, lift, raise, bind.
  cbn [fs trace].
  destruct (f !! cp) as [[c| |]|] eqn:E; cbn [negb fs trace]; rewrite ?E;
    try destruct (authorization_flow w); cbn [fs trace];
    rewrite <- ?app_assoc; reflexivity.
Qed.

Lemma get_gmail_service_cases (s : State) :
  let tp := token_path w in
  let cp := credentials_path w in
  let persist (r : result Credentials * State) : result Service * State :=
    match r with
    | (Ok c, s1) =>
        let t := trace s1 ++ [WriteTokenFile tp] in
        match open_for_writing w tp with
        | Raise e => (Raise e, mkState (fs s1) t)
        | Ok _ =>
            match file_write w tp with
            | Raise e => (Raise e, mkState (<[tp := OtherFile]> (fs s1)) t)
            | Ok _ =>
                (Ok (mkService c),
                 mkState (<[tp := TokenFile c]> (fs s1)) (t ++ [Build]))
            end
        end
    | (Raise e, s1) => (Raise e, s1)
    end in
  get_gmail_service w s =
    match fs s !! tp with
    | None =>
        persist (interactive_authorization w cp
                   (mkState (fs s) (trace s ++ [PathExists tp])))
    | Some (TokenFile c) =>
        let s1 := mkState (fs s) (trace s ++ [PathExists tp; ReadTokenFile tp]) in
        if valid c then (Ok (mkService c), mkState (fs s) (trace s1 ++ [Build]))
        else if expired c && has_refresh_token c then
          persist (lift (refresh_grant w c)
                     (mkState (fs s) (trace s1 ++ [Refresh])))
        else persist (interactive_authorization w cp s1)
    | Some _ =>
        (Raise LibraryError,
         mkState (fs s) (trace s ++ [PathExists tp; ReadTokenFile tp]))
    end.
Proof.
  intros tp cp persist. unfold get_gmail_service. fold tp cp.
  unfold os_path_exists at 1. unfold bind at 1.
  assert (Hpersist : forall (r : result Credentials * State),
             (let (o, s1) := r in
              match o with
              | Ok c =>
                  bind (bind (write_token w tp c) (fun _ => ret c)) (build) s1
              | Raise e => (Raise e, s1)
              end) = persist r).
  { intros [[c|e] s1]; [|reflexivity].
    unfold persist, write_token, build, emit, lift, ret, bind. cbn [fs trace].
    destruct (open_for_writing w tp); [|reflexivity].
    destruct (file_write w tp); cbn [fs trace]; rewrite <- ?app_assoc;
      reflexivity. }
  destruct (fs s !! tp) as [file|] eqn:E.
  - unfold from_authorized_user_file, read_state, emit, bind at 1 2 3.
    cbn [fs trace ret]. rewrite E, <- app_assoc. cbn [app].
    destruct file as [c| |]; try reflexivity.
    unfold bind at 1. cbn [ret].
    destruct (valid c).
    + unfold build, emit, ret, bind. cbn [fs trace].
      rewrite <- ?app_assoc. reflexivity.
    + unfold renew.
      destruct (expired c && has_refresh_token c).
      * rewrite <- Hpersist. unfold refresh, emit, lift, bind. cbn [fs trace].
        rewrite <- ?app_assoc.
        destruct (refresh_grant w c); reflexivity.
      * rewrite <- Hpersist. unfold bind.
        destruct (interactive_authorization w cp _) as [[c'|e] s1]; reflexivity.
  - unfold bind at 1. cbn [ret]. unfold bind at 1. cbn [ret].
    unfold renew. rewrite <- Hpersist. unfold bind.
    destruct (interactive_authorization w cp _) as [[c'|e] s1]; reflexivity.
Qed.

End SessionCases.

(** * Session acquisition: the paths through [get_gmail_service] *)

(** X1: a token file holding valid credentials is all session acquisition
    needs: the file is probed and read, the client is built, nothing is
    written, the client-secrets file is not looked for and no round trip
    is made. *)
Theorem session_valid_token_is_offline (w : World) (s : State) (c : Credentials) :
  fs s !! token_path w = Some (TokenFile c) ->
  valid c = true ->
  get_gmail_service w s =
    (Ok (mkService c),
     mkState (fs s)
       (trace s ++ [PathExists (token_path w); ReadTokenFile (token_path w);
                    Build])).
Proof.
  intros Htok Hvalid. rewrite get_gmail_service_cases. cbv zeta.
  rewrite Htok, Hvalid. cbn [fs trace]. rewrite <- app_assoc. reflexivity.
Qed.

Lemma session_valid_token_is_offline_witness :
  get_gmail_service Scenario.world Scenario.logged_in =
    (Ok (mkService Scenario.credentials_fresh),
     mkState (fs Scenario.logged_in)
       [PathExists (lit "token.json"); ReadTokenFile (lit "token.json"); Build]).
Proof.
  exact (session_valid_token_is_offline Scenario.world Scenario.logged_in
           Scenario.credentials_fresh eq_refl eq_refl).
Defined.

(** X2: expired credentials with a refresh token are refreshed in one round
    trip; when the token file can be opened and written, the refreshed
    credentials replace its content and are the ones the client is built
    with; the client-secrets file is not looked for. *)
Theorem session_refresh_persists (w : World) (s : State) (c c' : Credentials) :
  fs s !! token_path w = Some (TokenFile c) ->
  expired c = true ->
  has_refresh_token c = true ->
  refresh_grant w c = Ok c' ->
  open_for_writing w (token_path w) = Ok tt ->
  file_write w (token_path w) = Ok tt ->
  get_gmail_service w s =
    (Ok (mkService c'),
     mkState (<[token_path w := TokenFile c']> (fs s))
       (trace s ++ [PathExists (token_path w); ReadTokenFile (token_path w);
                    Refresh; WriteTokenFile (token_path w); Build])).
Proof.
  intros Htok Hexp Hrt Hgrant Hopen Hwrite.
  rewrite get_gmail_service_cases. cbv zeta. rewrite Htok.
  assert (Hvalid : valid c = false).
  { unfold valid. rewrite Hexp. destruct (token c); reflexivity. }
  rewrite Hvalid, Hexp, Hrt. cbn [andb]. unfold lift.
  rewrite Hgrant, Hopen, Hwrite.
  cbn [fs trace]. rewrite <- !app_assoc. reflexivity.
Qed.

Lemma session_refresh_persists_witness :
  get_gmail_service Scenario.world Scenario.token_expired =
    (Ok (mkService Scenario.credentials_fresh),
     mkState (<[lit "token.json" := TokenFile Scenario.credentials_fresh]>
                (fs Scenario.token_expired))
       [PathExists (lit "token.json"); ReadTokenFile (lit "token.json");
        Refresh; WriteTokenFile (lit "token.json"); Build]).
Proof.
  exact (session_refresh_persists Scenario.world Scenario.token_expired
           Scenario.credentials_expired Scenario.credentials_fresh
           eq_refl eq_refl eq_refl eq_refl eq_refl eq_refl).
Defined.

(** X3: a refresh the remote side rejects fails the acquisition with that
    error at once: the token file keeps its content, the interactive flow
    is not tried and no client is built. *)
Theorem session_refresh_failure_is_final (w : World) (s : State)
    (c : Credentials) (e : exn) :
  fs s !! token_path w = Some (TokenFile c) ->
  expired c = true ->
  has_refresh_token c = true ->
  refresh_grant w c = Raise e ->
  get_gmail_service w s =
    (Raise e,
     mkState (fs s)
       (trace s ++ [PathExists (token_path w); ReadTokenFile (token_path w);
                    Refresh])).
Proof.
  intros Htok Hexp Hrt Hgrant. rewrite get_gmail_service_cases. cbv zeta.
  rewrite Htok.
  assert (Hvalid : valid c = false).
  { unfold valid. rewrite Hexp. destruct (token c); reflexivity. }
  rewrite Hvalid, Hexp, Hrt. cbn [andb]. unfold lift. rewrite Hgrant.
  cbn [fs trace]. rewrite <- !app_assoc. reflexivity.
Qed.

Lemma session_refresh_failure_is_final_witness :
  get_gmail_service Scenario.world_down Scenario.token_expired =
    (Raise RefreshError,
     mkState (fs Scenario.token_expired)
       [PathExists (lit "token.json"); ReadTokenFile (lit "token.json");
        Refresh]).
Proof.
  exact (session_refresh_failure_is_final Scenario.world_down
           Scenario.token_expired Scenario.credentials_expired RefreshError
           eq_refl eq_refl eq_refl eq_refl).
Defined.

(** X4: on a first run (no token file, client-secrets file in place) the
    interactive flow is run once and, when the token file can be opened
    and written, the credentials it returns are stored there before the
    client is built. *)
Theorem session_first_run (w : World) (s : State) (c : Credentials) :
  fs s !! token_path w = None ->
  fs s !! credentials_path w = Some ClientSecretsFile ->
  authorization_flow w = Ok c ->
  open_for_writing w (token_path w) = Ok tt ->
  file_write w (token_path w) = Ok tt ->
  get_gmail_service w s =
    (Ok (mkService c),
     mkState (<[token_path w := TokenFile c]> (fs s))
       (trace s ++ [PathExists (token_path w); PathExists (credentials_path w);
                    ReadClientSecrets (credentials_path w); RunLocalServer;
                    WriteTokenFile (token_path w); Build])).
Proof.
  intros Htok Hcred Hflow Hopen Hwrite.
  rewrite get_gmail_service_cases. cbv zeta.
  rewrite Htok, interactive_authorization_cases. cbv zeta.
  rewrite Hcred, Hflow, Hopen, Hwrite.
  cbn [fs trace]. rewrite <- !app_assoc. reflexivity.
Qed.

Lemma session_first_run_witness :
  get_gmail_service Scenario.world Scenario.first_run =
    (Ok (mkService Scenario.credentials_fresh),
     mkState (<[lit "token.json" := TokenFile Scenario.credentials_fresh]>
                (fs Scenario.first_run))
       [PathExists (lit "token.json"); PathExists (lit "credentials.json");
        ReadClientSecrets (lit "credentials.json"); RunLocalServer;
        WriteTokenFile (lit "token.json"); Build]).
Proof.
  exact (session_first_run Scenario.world Scenario.first_run
           Scenario.credentials_fresh eq_refl eq_refl eq_refl eq_refl eq_refl).
Defined.

(** X5: a token file whose credentials are neither valid nor refreshable
    (not expired, or without refresh token) does not help: without the
    client-secrets file the acquisition fails with [FileNotFoundError]
    just as if there were no token, and the token file is left alone. *)
Theorem session_unusable_token_needs_credentials_file (w : World) (s : State)
    (c : Credentials) :
  fs s !! token_path w = Some (TokenFile c) ->
  valid c = false ->
  expired c && has_refresh_token c = false ->
  fs s !! credentials_path w = None ->
  get_gmail_service w s =
    (Raise (FileNotFoundError (credentials_not_found (credentials_path w))),
     mkState (fs s)
       (trace s ++ [PathExists (token_path w); ReadTokenFile (token_path w);
                    PathExists (credentials_path w)])).
Proof.
  intros Htok Hvalid Hrefresh Hcred. rewrite get_gmail_service_cases. cbv zeta.
  rewrite Htok, Hvalid, Hrefresh, interactive_authorization_cases. cbv zeta.
  rewrite Hcred. cbn [fs trace]. rewrite <- !app_assoc. reflexivity.
Qed.

Lemma session_unusable_token_needs_credentials_file_witness :
  fst (get_gmail_service Scenario.world
         (mkState {[ lit "token.json" :=
                       TokenFile (mkCredentials (Some (lit "ya29.old")) true None) ]}
            []))
  = Raise (FileNotFoundError
             (credentials_not_found (credentials_path Scenario.world))).
Proof.
  exact (f_equal fst
           (session_unusable_token_needs_credentials_file Scenario.world
              (mkState {[ lit "token.json" :=
                            TokenFile (mkCredentials (Some (lit "ya29.old")) true
                                         None) ]} [])
              (mkCredentials (Some (lit "ya29.old")) true None)
              eq_refl eq_refl eq_refl eq_refl)).
Defined.

(** * Session acquisition: what holds on every path *)

Ltac session_cases w s :=
  let Etok := fresh "Etok" in
  let Evalid := fresh "Evalid" in
  let Erefresh := fresh "Erefresh" in
  let Egrant := fresh "Egrant" in
  let Ecred := fresh "Ecred" in
  let Eflow := fresh "Eflow" in
  rewrite (get_gmail_service_cases w s) in *; cbv zeta in *;
  destruct (fs s !! token_path w) as [[?c| |]|] eqn:Etok;
  [ destruct (valid c) eqn:Evalid;
    [ | destruct (expired c && has_refresh_token c) eqn:Erefresh;
        [ unfold lift in *; destruct (refresh_grant w c) eqn:Egrant
        | rewrite interactive_authorization_cases in *; cbv zeta in *;
          destruct (fs s !! credentials_path w) as [[?c| |]|] eqn:Ecred;
          [ | destruct (authorization_flow w) eqn:Eflow | | ] ] ]
  | | | rewrite interactive_authorization_cases in *; cbv zeta in *;
        destruct (fs s !! credentials_path w) as [[?c| |]|] eqn:Ecred;
        [ | destruct (authorization_flow w) eqn:Eflow | | ] ];
  cbn [fs trace fst snd] in *;
  repeat match goal with
         | |- context [open_for_writing w ?p] =>
             destruct (open_for_writing w p) as [[]|?e]
         | H : context [open_for_writing w ?p] |- _ =>
             destruct (open_for_writing w p) as [[]|?e]
         | |- context [file_write w ?p] =>
             destruct (file_write w p) as [[]|?e]
         | H : context [file_write w ?p] |- _ =>
             destruct (file_write w p) as [[]|?e]
         end;
  cbn [fs trace fst snd] in *.

(** X6: whenever session acquisition succeeds, the token file holds the
    credentials the returned client works with. *)
Theorem session_success_token_file_in_step (w : World) (s s' : State)
    (service : Service) :
  get_gmail_service w s = (Ok service, s') ->
  fs s' !! token_path w = Some (TokenFile (service_credentials service)).
Proof.
  intros H. session_cases w s; try discriminate H;
    injection H as <- <-; cbn [fs service_credentials];
    first [ exact Etok | apply lookup_insert_eq ].
Qed.

Lemma session_success_token_file_in_step_witness :
  fs (snd (get_gmail_service Scenario.world Scenario.first_run))
    !! token_path Scenario.world
  = Some (TokenFile Scenario.credentials_fresh).
Proof.
  exact (session_success_token_file_in_step Scenario.world Scenario.first_run
           (snd (get_gmail_service Scenario.world Scenario.first_run))
           (mkService Scenario.credentials_fresh) eq_refl).
Defined.

(** X7: a session acquisition that fails has left the file system as it
    was, unless it had got as far as writing the token file: a rejected
    refresh, a missing client-secrets file or a failed authorization
    changes no file. *)
Theorem session_failure_before_write_changes_nothing (w : World)
    (s s' : State) (e : exn) :
  get_gmail_service w s = (Raise e, s') ->
  fs s' = fs s \/ WriteTokenFile (token_path w) ∈ new_events s s'.
Proof.
  intros H. unfold new_events.
  session_cases w s; try discriminate H; injection H as <- <-;
    cbn [fs trace];
    first [ left; reflexivity
          | right; rewrite <- ?app_assoc, drop_app_length; cbn [app];
            repeat first [ apply list_elem_of_here | apply list_elem_of_further ] ].
Qed.

Lemma session_failure_before_write_changes_nothing_witness :
  fs (snd (get_gmail_service Scenario.world_down Scenario.token_expired))
  = fs Scenario.token_expired
  \/ WriteTokenFile (token_path Scenario.world_down)
     ∈ new_events Scenario.token_expired
         (snd (get_gmail_service Scenario.world_down Scenario.token_expired)).
Proof.
  exact (session_failure_before_write_changes_nothing Scenario.world_down
           Scenario.token_expired
           (snd (get_gmail_service Scenario.world_down Scenario.token_expired))
           RefreshError eq_refl).
Defined.

(** X8: session acquisition makes at most one network round trip: a
    refresh or the interactive exchange, never both and never a second
    attempt. *)
Theorem session_at_most_one_round_trip (w : World) (s : State) :
  exists evs,
    trace (snd (get_gmail_service w s)) = trace s ++ evs
    /\ network_round_trips evs <= 1.
Proof.
  session_cases w s; rewrite <- ?app_assoc; cbn [app];
    eexists; (split; [reflexivity | cbn; lia]).
Qed.

(** X9: when the token file cannot be opened for writing, an acquisition
    that refreshed the credentials fails with the error of [open], after
    the round trip has been made: the refreshed credentials are lost, no
    file has changed and no client is built. *)
Theorem session_refresh_lost_when_token_file_unwritable (w : World) (s : State)
    (c c' : Credentials) (e : exn) :
  fs s !! token_path w = Some (TokenFile c) ->
  expired c = true ->
  has_refresh_token c = true ->
  refresh_grant w c = Ok c' ->
  open_for_writing w (token_path w) = Raise e ->
  get_gmail_service w s =
    (Raise e,
     mkState (fs s)
       (trace s ++ [PathExists (token_path w); ReadTokenFile (token_path w);
                    Refresh; WriteTokenFile (token_path w)])).
Proof.
  intros Htok Hexp Hrt Hgrant Hopen.
  rewrite get_gmail_service_cases. cbv zeta. rewrite Htok.
  assert (Hvalid : valid c = false).
  { unfold valid. rewrite Hexp. destruct (token c); reflexivity. }
  rewrite Hvalid, Hexp, Hrt. cbn [andb]. unfold lift.
  rewrite Hgrant, Hopen.
  cbn [fs trace]. rewrite <- !app_assoc. reflexivity.
Qed.

Lemma session_refresh_lost_when_token_file_unwritable_witness :
  get_gmail_service Scenario.world_locked Scenario.token_expired =
    (Raise (FileNotFoundError (lit "token.json")),
     mkState (fs Scenario.token_expired)
       [PathExists (lit "token.json"); ReadTokenFile (lit "token.json");
        Refresh; WriteTokenFile (lit "token.json")]).
Proof.
  exact (session_refresh_lost_when_token_file_unwritable Scenario.world_locked
           Scenario.token_expired Scenario.credentials_expired
           Scenario.credentials_fresh (FileNotFoundError (lit "token.json"))
           eq_refl eq_refl eq_refl eq_refl eq_refl).
Defined.

(** * What the handlers touch *)

Section KeepsFs.

Lemma keeps_fs_ret {A} (a : A) : keeps_fs (ret a).
Proof. intros s. reflexivity. Qed.

Lemma keeps_fs_raise {A} e : keeps_fs (@raise A e).
Proof. intros s. reflexivity. Qed.

Lemma keeps_fs_lift {A} (r : result A) : keeps_fs (lift r).
Proof. intros s. reflexivity. Qed.

Lemma keeps_fs_emit e : keeps_fs (emit e).
Proof. intros s. reflexivity. Qed.

Lemma keeps_fs_bind {A B} (m : M A) (k : A -> M B) :
  keeps_fs m -> (forall a, keeps_fs (k a)) -> keeps_fs (bind m k).
Proof.
  intros Hm Hk s. unfold bind. specialize (Hm s).
  destruct (m s) as [[a|e] s1]; cbn in Hm |- *; [|exact Hm].
  rewrite (Hk a s1). exact Hm.
Qed.

Lemma keeps_fs_for_each {A B} (f : A -> M B) (xs : list A) :
  (forall x, keeps_fs (f x)) -> keeps_fs (for_each f xs).
Proof.
  intros Hf. induction xs as [|x xs IH]; cbn [for_each].
  - apply keeps_fs_ret.
  - apply keeps_fs_bind; [apply Hf|]. intros y.
    apply keeps_fs_bind; [exact IH|]. intros ys. apply keeps_fs_ret.
Qed.

Lemma emits_only_for_each P {A B} (f : A -> M B) (xs : list A) :
  (forall x, emits_only P (f x)) -> emits_only P (for_each f xs).
Proof.
  intros Hf. induction xs as [|x xs IH]; cbn [for_each].
  - apply emits_only_ret.
  - apply emits_only_bind; [apply Hf|]. intros y.
    apply emits_only_bind; [exact IH|]. intros ys. apply emits_only_ret.
Qed.

End KeepsFs.

#[export] Hint Resolve keeps_fs_ret keeps_fs_raise keeps_fs_lift keeps_fs_emit
  : events.

Ltac handler_step :=
  first
    [ apply emits_only_bind; [|intros ?]
    | apply keeps_fs_bind; [|intros ?]
    | apply emits_only_for_each; intros ?
    | apply keeps_fs_for_each; intros ?
    | apply emits_only_emit; reflexivity
    | solve [auto with events]
    | match goal with
      | |- emits_only _ (match ?x with _ => _ end) => destruct x
      | |- keeps_fs (match ?x with _ => _ end) => destruct x
      | |- emits_only _ (if ?x then _ else _) => destruct x
      | |- keeps_fs (if ?x then _ else _) => destruct x
      end ].

Section Handlers.
Variable w : World.
Variable as_bytes : MIMEText -> result bytes.
Variable service : Service.
Variable args : gmap str pyval.

Lemma scan_parts_pure ps : emits_only is_mail_call (scan_parts ps) /\ keeps_fs (scan_parts ps).
Proof.
  induction ps as [|part ps [IH1 IH2]]; cbn [scan_parts]; unfold decode_body;
    split; repeat handler_step; assumption.
Qed.

Lemma search_emails_touches :
  emits_only is_mail_call (_search_emails w service args)
  /\ keeps_fs (_search_emails w service args).
Proof.
  unfold _search_emails, getitem, execute_messages_list, execute_messages_get.
  split; repeat handler_step.
Qed.

Lemma read_email_touches :
  emits_only is_mail_call (_read_email w service args)
  /\ keeps_fs (_read_email w service args).
Proof.
  unfold _read_email, getitem, execute_messages_get, extract_body, decode_body.
  split; repeat first [ apply scan_parts_pure | handler_step ].
Qed.

Lemma send_email_touches :
  emits_only is_mail_call (_send_email w as_bytes service args)
  /\ keeps_fs (_send_email w as_bytes service args).
Proof.
  unfold _send_email, getitem, execute_messages_send, MIMEText_init.
  split; repeat handler_step.
Qed.

Lemma list_labels_touches :
  emits_only is_mail_call (_list_labels w service)
  /\ keeps_fs (_list_labels w service).
Proof.
  unfold _list_labels, execute_labels_list.
  split; repeat handler_step.
Qed.

End Handlers.

(** * The dispatcher: a tool call as a whole *)

Section Dispatch.
Variable w : World.
Variable as_bytes : MIMEText -> result bytes.

Lemma call_tool_after_session (name : str) (args : gmap str pyval) (s : State) :
  exists evs,
    trace (snd (call_tool w as_bytes name args s))
    = trace (snd (get_gmail_service w s)) ++ evs
    /\ forallb is_mail_call evs = true
    /\ fs (snd (call_tool w as_bytes name args s))
       = fs (snd (get_gmail_service w s)).
Proof.
  unfold call_tool, bind.
  destruct (get_gmail_service w s) as [[service|e] s1]; cbn [snd].
  2:{ exists []. rewrite app_nil_r. auto. }
  assert (H : forall (m : M (list TextContent)),
             emits_only is_mail_call m /\ keeps_fs m ->
             exists evs, trace (snd (m s1)) = trace s1 ++ evs
                         /\ forallb is_mail_call evs = true
                         /\ fs (snd (m s1)) = fs s1).
  { intros m [Hev Hfs]. destruct (Hev s1) as (evs & Htr & Hall).
    exists evs. auto. }
  repeat match goal with
         | |- context [bool_decide ?P] => destruct (bool_decide P)
         end; apply H.
  - apply search_emails_touches.
  - apply read_email_touches.
  - apply send_email_touches.
  - apply list_labels_touches.
  - split; [apply emits_only_raise | apply keeps_fs_raise].
Qed.

Lemma session_other_paths (s : State) (path : str) :
  path <> token_path w ->
  fs (snd (get_gmail_service w s)) !! path = fs s !! path.
Proof.
  intros Hne. session_cases w s; try reflexivity;
    apply lookup_insert_ne; congruence.
Qed.

Lemma session_starts_with_probe (s : State) :
  exists evs,
    trace (snd (get_gmail_service w s))
    = trace s ++ PathExists (token_path w) :: evs.
Proof.
  session_cases w s; rewrite <- ?app_assoc; cbn [app]; eexists; reflexivity.
Qed.

(** X10: the trace of a tool call is that of session acquisition followed
    by calls on the mail service only: whatever the tool and the
    arguments, no file is probed, read or written and no credential round
    trip is made once the first mail call has gone out. *)
Theorem call_tool_session_then_mail (name : str) (args : gmap str pyval)
    (s : State) :
  exists session mail,
    trace (snd (call_tool w as_bytes name args s)) = trace s ++ session ++ mail
    /\ forallb (fun e => negb (is_mail_call e)) session = true
    /\ forallb is_mail_call mail = true.
Proof.
  destruct (call_tool_after_session name args s) as (mail & Htr & Hmail & _).
  destruct (get_gmail_service_no_mail_call w s) as (session & Hs & Hsession).
  exists session, mail. rewrite Htr, Hs, app_assoc. auto.
Qed.

(** X11: a tool call leaves every file other than the token file as it
    was, whatever the tool, the arguments and the outcome. *)
Theorem call_tool_writes_only_token_file (name : str) (args : gmap str pyval)
    (s : State) (path : str) :
  path <> token_path w ->
  fs (snd (call_tool w as_bytes name args s)) !! path = fs s !! path.
Proof.
  intros Hne.
  destruct (call_tool_after_session name args s) as (_ & _ & _ & Hfs).
  rewrite Hfs. apply session_other_paths, Hne.
Qed.

(** X12: every tool call starts by probing the token path: no session is
    kept from one call to the next, also for a name that is not a tool. *)
Theorem call_tool_resolves_credentials_first (name : str)
    (args : gmap str pyval) (s : State) :
  exists evs,
    trace (snd (call_tool w as_bytes name args s))
    = trace s ++ PathExists (token_path w) :: evs.
Proof.
  destruct (call_tool_after_session name args s) as (mail & Htr & _).
  destruct (session_starts_with_probe s) as (evs & Hs).
  exists (evs ++ mail). rewrite Htr, Hs, <- app_assoc. reflexivity.
Qed.

End Dispatch.

Lemma call_tool_writes_only_token_file_witness :
  fs (snd (call_tool Scenario.world Scenario.serialise (lit "gmail_list_labels")
             ∅ Scenario.first_run)) !! lit "credentials.json"
  = Some ClientSecretsFile.
Proof.
  rewrite (call_tool_writes_only_token_file Scenario.world Scenario.serialise
             (lit "gmail_list_labels") ∅ Scenario.first_run
             (lit "credentials.json")).
  - reflexivity.
  - discriminate.
Defined.

(** * The handlers: failures and edge cases *)

Section HandlerEdges.
Variable w : World.
Variable as_bytes : MIMEText -> result bytes.
Variable service : Service.

Lemma for_each_metadata_fails pre r post (m : MessageRef -> Message) e :
  (forall ref, ref ∈ pre ->
     messages_get w (PyStr (ref_id ref)) (lit "metadata") = Ok (m ref)) ->
  messages_get w (PyStr (ref_id r)) (lit "metadata") = Raise e ->
  forall s,
    for_each (fun msg =>
        msg_data <~ execute_messages_get w service (PyStr (ref_id msg))
                      (lit "metadata") ;;
        ret (search_block msg (headers_dict (headers (payload msg_data)))))
      (pre ++ r :: post) s
    = (Raise e, mkState (fs s) (trace s ++ metadata_gets (pre ++ [r]))).
Proof.
  intros Hpre Hr. induction pre as [|p pre IH]; intros s.
  - cbn [app for_each metadata_gets fmap list_fmap].
    unfold bind at 1. unfold execute_messages_get at 1.
    unfold bind at 1, emit, lift. rewrite Hr. reflexivity.
  - cbn [app for_each].
    unfold bind at 1. unfold execute_messages_get at 1.
    unfold bind at 1, emit, lift.
    rewrite (Hpre p (list_elem_of_here _ _)). cbn [ret bind].
    unfold bind at 1.
    rewrite IH by (intros ref Href; apply Hpre, list_elem_of_further, Href).
    cbn [fs trace metadata_gets fmap list_fmap app].
    rewrite <- app_assoc. reflexivity.
Qed.

(** X13: a search is all or nothing: when the metadata of a listed message
    cannot be fetched, the call fails with that error, the messages after
    it are not fetched and the blocks already built are dropped. *)
Theorem search_stops_at_first_failed_fetch (args : gmap str pyval) (s : State)
    (query : pyval) (resp : ListMessagesResponse)
    (pre post : list MessageRef) (r : MessageRef)
    (m : MessageRef -> Message) (e : exn) :
  let max_results := dict_get args (lit "max_results") (PyInt 10) in
  args !! lit "query" = Some query ->
  messages_list w query max_results = Ok resp ->
  default [] (messages resp) = pre ++ r :: post ->
  (forall ref, ref ∈ pre ->
     messages_get w (PyStr (ref_id ref)) (lit "metadata") = Ok (m ref)) ->
  messages_get w (PyStr (ref_id r)) (lit "metadata") = Raise e ->
  _search_emails w service args s =
    (Raise e,
     mkState (fs s)
       (trace s ++ MessagesList query max_results :: metadata_gets (pre ++ [r]))).
Proof.
  intros max_results Hq Hlist Hrefs Hpre Hr. unfold _search_emails.
  rewrite (bind_ok _ _ s query s) by (apply getitem_ok, Hq).
  unfold execute_messages_list. unfold bind at 1. unfold bind at 1, emit, lift.
  fold max_results. rewrite Hlist. cbn [fs trace]. rewrite Hrefs.
  destruct (pre ++ r :: post) as [|x xs] eqn:E.
  { destruct pre; discriminate E. }
  rewrite <- E. unfold bind.
  rewrite (for_each_metadata_fails pre r post m e Hpre Hr).
  cbn [fs trace]. rewrite <- app_assoc. reflexivity.
Qed.

(** X14: an error of the remote call a handler starts with is the error of
    the tool, raised after this one attempt: no retry, no fallback text. *)
Theorem remote_error_is_raised_as_is (args : gmap str pyval) (s : State)
    (e : exn) :
  (forall query,
      args !! lit "query" = Some query ->
      messages_list w query (dict_get args (lit "max_results") (PyInt 10))
        = Raise e ->
      _search_emails w service args s =
        (Raise e,
         mkState (fs s)
           (trace s ++ [MessagesList query
                          (dict_get args (lit "max_results") (PyInt 10))])))
  /\ (forall mid,
        args !! lit "message_id" = Some mid ->
        messages_get w mid (lit "full") = Raise e ->
        _read_email w service args s =
          (Raise e, mkState (fs s) (trace s ++ [MessagesGet mid (lit "full")])))
  /\ (forall b t sj bs,
        args !! lit "body" = Some (PyStr b) ->
        args !! lit "to" = Some t ->
        args !! lit "subject" = Some sj ->
        as_bytes (mkMIMEText b [(lit "to", t); (lit "subject", sj)]) = Ok bs ->
        messages_send w (Base64.urlsafe_b64encode bs) = Raise e ->
        _send_email w as_bytes service args s =
          (Raise e,
           mkState (fs s)
             (trace s ++ [MessagesSend (Base64.urlsafe_b64encode bs)])))
  /\ (labels_list w = Raise e ->
      _list_labels w service s =
        (Raise e, mkState (fs s) (trace s ++ [LabelsList]))).
Proof.
  repeat split.
  - intros query Hq Hlist. unfold _search_emails.
    rewrite (bind_ok _ _ s query s) by (apply getitem_ok, Hq).
    unfold execute_messages_list. unfold bind at 1. unfold bind at 1, emit, lift.
    rewrite Hlist. reflexivity.
  - intros mid Hid Hget. unfold _read_email.
    rewrite (bind_ok _ _ s mid s) by (apply getitem_ok, Hid).
    unfold execute_messages_get. unfold bind at 1. unfold bind at 1, emit, lift.
    rewrite Hget. reflexivity.
  - intros b t sj bs Hb Ht Hsj Hser Hsend. unfold _send_email.
    rewrite (bind_ok _ _ s (PyStr b) s) by (apply getitem_ok, Hb).
    cbn [MIMEText_init]. unfold bind at 1. cbn [ret].
    rewrite (bind_ok _ _ s t s) by (apply getitem_ok, Ht).
    rewrite (bind_ok _ _ s sj s) by (apply getitem_ok, Hsj).
    unfold MIMEText_setitem. cbn [mime_text mime_headers app].
    unfold bind at 1, lift. rewrite Hser.
    unfold execute_messages_send. unfold bind at 1. unfold bind at 1, emit, lift.
    rewrite Hsend. reflexivity.
  - intros Hlist. unfold _list_labels, execute_labels_list.
    unfold bind at 1. unfold bind at 1, emit, lift. rewrite Hlist. reflexivity.
Qed.

End HandlerEdges.

Lemma search_stops_at_first_failed_fetch_witness :
  _search_emails Scenario.world_gap Scenario.service
    {[ lit "query" := PyStr (lit "is:unread") ]} Scenario.logged_in
  = (Raise (HttpError 404),
     mkState (fs Scenario.logged_in)
       [MessagesList (PyStr (lit "is:unread")) (PyInt 10);
        MessagesGet (PyStr (lit "m1")) (lit "metadata");
        MessagesGet (PyStr (lit "m2")) (lit "metadata")]).
Proof.
  refine (search_stops_at_first_failed_fetch Scenario.world_gap Scenario.service
            {[ lit "query" := PyStr (lit "is:unread") ]} Scenario.logged_in
            (PyStr (lit "is:unread"))
            (mkListMessages
               (Some [mkMessageRef (lit "m1"); mkMessageRef (lit "m2");
                      mkMessageRef (lit "m3")]))
            [mkMessageRef (lit "m1")] [mkMessageRef (lit "m3")]
            (mkMessageRef (lit "m2")) (fun _ => Scenario.message_plain)
            (HttpError 404) eq_refl eq_refl eq_refl _ eq_refl).
  intros ref Href. apply list_elem_of_singleton in Href as ->. reflexivity.
Defined.

Lemma remote_error_is_raised_as_is_witness :
  _list_labels Scenario.world_down Scenario.service Scenario.logged_in
  = (Raise (HttpError 503), mkState (fs Scenario.logged_in) [LabelsList])
  /\ _read_email Scenario.world_down Scenario.service
       {[ lit "message_id" := PyStr (lit "m1") ]} Scenario.logged_in
     = (Raise (HttpError 503),
        mkState (fs Scenario.logged_in)
          [MessagesGet (PyStr (lit "m1")) (lit "full")]).
Proof.
  pose proof (remote_error_is_raised_as_is Scenario.world_down
                Scenario.serialise Scenario.service
                {[ lit "message_id" := PyStr (lit "m1") ]} Scenario.logged_in
                (HttpError 503)) as (_ & Hread & _ & Hlabels).
  split.
  - exact (Hlabels eq_refl).
  - exact (Hread (PyStr (lit "m1")) eq_refl eq_refl).
Defined.

(** * Headers and bodies *)

Lemma headers_fold_lookup_other (hs : list Header) (d : gmap str str) (key : str) :
  key ∉ header_name <$> hs ->
  foldl (fun d h => <[header_name h := header_value h]> d) d hs !! key = d !! key.
Proof.
  revert d. induction hs as [|h hs IH]; intros d Hn; [reflexivity|].
  cbn [foldl]. rewrite IH.
  - apply lookup_insert_ne. intros Heq. apply Hn. cbn. rewrite Heq.
    apply list_elem_of_here.
  - intros Hin. apply Hn. cbn. apply list_elem_of_further, Hin.
Qed.

(** X15: when a header name occurs more than once, the value shown is that
    of its last occurrence. *)
Theorem header_last_occurrence_wins (pre post : list Header) (h : Header)
    (dflt : str) :
  header_name h ∉ header_name <$> post ->
  dict_get (headers_dict (pre ++ h :: post)) (header_name h) dflt
  = header_value h.
Proof.
  intros Hn. unfold dict_get, headers_dict.
  rewrite foldl_app. cbn [foldl].
  rewrite headers_fold_lookup_other by exact Hn.
  rewrite lookup_insert_eq. reflexivity.
Qed.

Lemma header_last_occurrence_wins_witness :
  read_lines [mkHeader (lit "Subject") (lit "first");
              mkHeader (lit "To") (lit "bob@example.com");
              mkHeader (lit "Subject") (lit "second")] !! 2%nat
  = Some (lit "Subject: second").
Proof.
  refine (f_equal (fun v => Some (lit "Subject: " ++ v))
            (header_last_occurrence_wins
               [mkHeader (lit "Subject") (lit "first");
                mkHeader (lit "To") (lit "bob@example.com")] []
               (mkHeader (lit "Subject") (lit "second")) (lit "No Subject") _)).
  intros Hin. inversion Hin.
Defined.

Lemma scan_parts_state ps s : snd (scan_parts ps s) = s.
Proof.
  induction ps as [|part ps IH]; [reflexivity|].
  cbn [scan_parts]. destruct (bool_decide _); [|exact IH].
  unfold bind, decode_body, lift, raise, ret.
  destruct (body part) as [[[d|]]|]; reflexivity.
Qed.

Lemma extract_body_state p s : snd (extract_body p s) = s.
Proof.
  unfold extract_body. destruct (parts p); [apply scan_parts_state|].
  destruct (body p) as [[[d|]]|]; reflexivity.
Qed.

Section ReadEdges.
Variable w : World.
Variable service : Service.

(** X16: reading a message is one call on the mail service, whatever the
    message looks like and whether or not the call succeeds: parts,
    nested parts and attachments are never fetched separately. *)
Theorem read_is_one_mail_call (args : gmap str pyval) (s : State) (mid : pyval) :
  args !! lit "message_id" = Some mid ->
  snd (_read_email w service args s)
  = mkState (fs s) (trace s ++ [MessagesGet mid (lit "full")]).
Proof.
  intros Hid. unfold _read_email.
  rewrite (bind_ok _ _ s mid s) by (apply getitem_ok, Hid).
  unfold execute_messages_get. unfold bind at 1. unfold bind at 1, emit, lift.
  destruct (messages_get w mid (lit "full")) as [msg|e]; [|reflexivity].
  unfold bind.
  pose proof (extract_body_state (payload msg)
                (mkState (fs s) (trace s ++ [MessagesGet mid (lit "full")])))
    as Hstate.
  destruct (extract_body (payload msg) _) as [[b|e] s1]; cbn in Hstate |- *;
    exact Hstate.
Qed.

Lemma read_email_body_fails (args : gmap str pyval) (s : State) (mid : pyval)
    (msg : Message) (e : exn) :
  args !! lit "message_id" = Some mid ->
  messages_get w mid (lit "full") = Ok msg ->
  (forall s0, extract_body (payload msg) s0 = (Raise e, s0)) ->
  _read_email w service args s =
    (Raise e, mkState (fs s) (trace s ++ [MessagesGet mid (lit "full")])).
Proof.
  intros Hid Hget Hbody. unfold _read_email.
  rewrite (bind_ok _ _ s mid s) by (apply getitem_ok, Hid).
  unfold execute_messages_get. unfold bind at 1. unfold bind at 1, emit, lift.
  rewrite Hget. unfold bind. rewrite Hbody. reflexivity.
Qed.

(** X17: when the data of the first text/plain part does not decode (bad
    base64, or bytes that are not UTF-8), reading fails with the decoder's
    error; later parts are not tried and no text is returned. *)
Theorem read_fails_when_first_plain_part_does_not_decode
    (args : gmap str pyval) (s : State) (mid : pyval) (msg : Message)
    (pre post : list MessagePart) (part : MessagePart) (d : str) (e : exn) :
  args !! lit "message_id" = Some mid ->
  messages_get w mid (lit "full") = Ok msg ->
  parts (payload msg) = Some (pre ++ part :: post) ->
  Forall (fun q => mimeType q <> lit "text/plain") pre ->
  mimeType part = lit "text/plain" ->
  body part = Some (mkBody (Some d)) ->
  result_bind (Base64.urlsafe_b64decode d) Utf8.decode = Raise e ->
  _read_email w service args s =
    (Raise e, mkState (fs s) (trace s ++ [MessagesGet mid (lit "full")])).
Proof.
  intros Hid Hget Hparts Hpre Hmime Hbody Hdec.
  apply (read_email_body_fails args s mid msg e Hid Hget).
  intros s0. unfold extract_body. rewrite Hparts.
  rewrite scan_parts_skip by exact Hpre.
  cbn [scan_parts]. rewrite bool_decide_eq_true_2 by exact Hmime.
  rewrite Hbody. cbn [bind ret data]. unfold decode_body, lift.
  rewrite Hdec. reflexivity.
Qed.

(** X18: a first text/plain part without data (a text attachment, stored
    under an attachment id) makes reading fail with [KeyError] on [data],
    even when a later part carries readable text. *)
Theorem read_fails_on_plain_part_without_data
    (args : gmap str pyval) (s : State) (mid : pyval) (msg : Message)
    (pre post : list MessagePart) (part : MessagePart) :
  args !! lit "message_id" = Some mid ->
  messages_get w mid (lit "full") = Ok msg ->
  parts (payload msg) = Some (pre ++ part :: post) ->
  Forall (fun q => mimeType q <> lit "text/plain") pre ->
  mimeType part = lit "text/plain" ->
  body part = Some (mkBody None) ->
  _read_email w service args s =
    (Raise (KeyError (lit "data")),
     mkState (fs s) (trace s ++ [MessagesGet mid (lit "full")])).
Proof.
  intros Hid Hget Hparts Hpre Hmime Hbody.
  apply (read_email_body_fails args s mid msg _ Hid Hget).
  intros s0. unfold extract_body. rewrite Hparts.
  rewrite scan_parts_skip by exact Hpre.
  cbn [scan_parts]. rewrite bool_decide_eq_true_2 by exact Hmime.
  rewrite Hbody. reflexivity.
Qed.

End ReadEdges.

Lemma read_is_one_mail_call_witness :
  snd (_read_email Scenario.world Scenario.service
         {[ lit "message_id" := PyStr (lit "m2") ]} Scenario.logged_in)
  = mkState (fs Scenario.logged_in) [MessagesGet (PyStr (lit "m2")) (lit "full")].
Proof.
  exact (read_is_one_mail_call Scenario.world Scenario.service
           {[ lit "message_id" := PyStr (lit "m2") ]} Scenario.logged_in
           (PyStr (lit "m2")) eq_refl).
Defined.

Lemma read_fails_when_first_plain_part_does_not_decode_witness :
  fst (_read_email Scenario.world_odd Scenario.service
         {[ lit "message_id" := PyStr (lit "m5") ]} Scenario.logged_in)
  = Raise UnicodeDecodeError.
Proof.
  refine (f_equal fst
            (read_fails_when_first_plain_part_does_not_decode
               Scenario.world_odd Scenario.service
               {[ lit "message_id" := PyStr (lit "m5") ]} Scenario.logged_in
               (PyStr (lit "m5")) Scenario.message_latin1 []
               [mkPart (lit "text/plain") []
                  (Some (mkBody (Some Scenario.hello_data))) None]
               (mkPart (lit "text/plain") [] (Some (mkBody (Some (lit "6Q=="))))
                  None)
               (lit "6Q==") UnicodeDecodeError eq_refl eq_refl eq_refl _
               eq_refl eq_refl eq_refl)).
  constructor.
Defined.

Lemma read_fails_on_plain_part_without_data_witness :
  fst (_read_email Scenario.world_odd Scenario.service
         {[ lit "message_id" := PyStr (lit "m4") ]} Scenario.logged_in)
  = Raise (KeyError (lit "data")).
Proof.
  refine (f_equal fst
            (read_fails_on_plain_part_without_data
               Scenario.world_odd Scenario.service
               {[ lit "message_id" := PyStr (lit "m4") ]} Scenario.logged_in
               (PyStr (lit "m4")) Scenario.message_attachment [] []
               (mkPart (lit "text/plain") [] (Some (mkBody None)) None)
               eq_refl eq_refl eq_refl _ eq_refl eq_refl)).
  constructor.
Defined.

(** * Sending *)

Section Base64Shape.
Import Base64.
Local Open Scope N_scope.

Lemma urlsafe_char_sextet v :
  v < 64 -> urlsafe_char (urlsafe_encode_translation (b2a v)) = true.
Proof.
  apply (forallb_below
           (fun v => urlsafe_char (urlsafe_encode_translation (b2a v))) 64).
  vm_compute. reflexivity.
Qed.

Lemma urlsafe_b64encode_shape bs :
  Forall octet bs ->
  forallb urlsafe_char (urlsafe_b64encode bs) = true
  /\ exists k, length (urlsafe_b64encode bs) = (4 * k)%nat.
Proof.
  unfold urlsafe_b64encode.
  induction bs as [|b0|b0 b1|b0 b1 b2 rest IH] using list_ind3; intros Hall.
  - split; [reflexivity|]. exists 0%nat. reflexivity.
  - apply Forall_cons in Hall as [H0 _]. unfold octet in H0.
    cbn [b2a_base64 fmap list_fmap forallb length].
    rewrite sextet_1_tail, shiftr_2.
    rewrite !urlsafe_char_sextet by dlia.
    split; [reflexivity|]. exists 1%nat. reflexivity.
  - apply Forall_cons in Hall as [H0 Hall]. apply Forall_cons in Hall as [H1 _].
    unfold octet in H0, H1.
    cbn [b2a_base64 fmap list_fmap forallb length].
    rewrite sextet_1, sextet_2_tail, shiftr_2 by exact H1.
    rewrite !urlsafe_char_sextet by dlia.
    split; [reflexivity|]. exists 1%nat. reflexivity.
  - apply Forall_cons in Hall as [H0 Hall]. apply Forall_cons in Hall as [H1 Hall].
    apply Forall_cons in Hall as [H2 Hall].
    destruct (IH Hall) as [IHc [k IHk]].
    unfold octet in H0, H1, H2.
    cbn [b2a_base64 fmap list_fmap forallb length].
    rewrite sextet_1, sextet_2, sextet_3, shiftr_2 by assumption.
    rewrite !urlsafe_char_sextet by dlia.
    split; [exact IHc|]. exists (S k). rewrite IHk. lia.
Qed.

End Base64Shape.

Section SendEdges.
Variable w : World.
Variable as_bytes : MIMEText -> result bytes.
Variable service : Service.

Lemma send_email_cases (args : gmap str pyval) (s : State) :
  _send_email w as_bytes service args s =
    match args !! lit "body" with
    | None => (Raise (KeyError (lit "body")), s)
    | Some (PyStr b) =>
        match args !! lit "to" with
        | None => (Raise (KeyError (lit "to")), s)
        | Some t =>
            match args !! lit "subject" with
            | None => (Raise (KeyError (lit "subject")), s)
            | Some sj =>
                match as_bytes (mkMIMEText b [(lit "to", t); (lit "subject", sj)])
                with
                | Raise e => (Raise e, s)
                | Ok bs =>
                    let raw := Base64.urlsafe_b64encode bs in
                    let s' := mkState (fs s) (trace s ++ [MessagesSend raw]) in
                    match messages_send w raw with
                    | Raise e => (Raise e, s')
                    | Ok sent =>
                        (Ok [mkTextContent (lit "text")
                               (lit "Email sent successfully. Message ID: "
                                ++ sent_id sent)], s')
                    end
                end
            end
        end
    | Some _ => (Raise AttributeError, s)
    end.
Proof.
  unfold _send_email, getitem.
  destruct (args !! lit "body") as [vb|]; [|reflexivity].
  unfold bind at 1. cbn [ret].
  destruct vb as [| | |b| |]; cbn [MIMEText_init]; try reflexivity.
  unfold bind at 1. cbn [ret].
  destruct (args !! lit "to") as [vt|]; [|reflexivity].
  unfold bind at 1. cbn [ret].
  destruct (args !! lit "subject") as [vs|]; [|reflexivity].
  unfold bind at 1. cbn [ret].
  unfold MIMEText_setitem. cbn [mime_text mime_headers app].
  unfold bind at 1, lift.
  destruct (as_bytes _) as [bs|e]; [|reflexivity].
  unfold execute_messages_send, bind, emit, lift. cbn [fs trace].
  destruct (messages_send w _); reflexivity.
Qed.

(** X19: sending makes at most one call on the mail service, and it is a
    send; a successful answer means the message went out exactly once. *)
Theorem send_at_most_once (args : gmap str pyval) (s : State) :
  exists evs,
    snd (_send_email w as_bytes service args s) = mkState (fs s) (trace s ++ evs)
    /\ (evs = [] \/ exists raw, evs = [MessagesSend raw])
    /\ (forall r, fst (_send_email w as_bytes service args s) = Ok r ->
        exists raw, evs = [MessagesSend raw]).
Proof.
  rewrite send_email_cases.
  assert (Hnone : forall e,
            exists evs, snd (@Raise (list TextContent) e, s)
                        = mkState (fs s) (trace s ++ evs)
              /\ (evs = [] \/ exists raw, evs = [MessagesSend raw])
              /\ (forall r, fst (@Raise (list TextContent) e, s) = Ok r ->
                  exists raw, evs = [MessagesSend raw])).
  { intros e. exists []. rewrite app_nil_r. destruct s. cbn.
    split; [reflexivity|]. split; [auto|]. intros r Hr. discriminate Hr. }
  destruct (args !! lit "body") as [[| | |b| |]|]; try apply Hnone.
  destruct (args !! lit "to") as [t|]; [|apply Hnone].
  destruct (args !! lit "subject") as [sj|]; [|apply Hnone].
  destruct (as_bytes _) as [bs|e]; [|apply Hnone].
  cbv zeta. exists [MessagesSend (Base64.urlsafe_b64encode bs)].
  destruct (messages_send w _); cbn;
    (split; [reflexivity|]); (split; [eauto|]); intros r Hr; eauto.
Qed.

(** X20: what is submitted as [raw] is made of letters, digits, [-], [_]
    and [=] only, and its length is a multiple of four: the standard
    base64 characters [+] and [/] never appear. *)
Theorem send_raw_is_urlsafe (args : gmap str pyval) (s : State)
    (b : str) (t sj : pyval) (bs : bytes) :
  args !! lit "body" = Some (PyStr b) ->
  args !! lit "to" = Some t ->
  args !! lit "subject" = Some sj ->
  as_bytes (mkMIMEText b [(lit "to", t); (lit "subject", sj)]) = Ok bs ->
  Forall Base64.octet bs ->
  exists raw,
    snd (_send_email w as_bytes service args s)
    = mkState (fs s) (trace s ++ [MessagesSend raw])
    /\ forallb urlsafe_char raw = true
    /\ exists k, length raw = 4 * k.
Proof.
  intros Hb Ht Hsj Hser Hoct.
  exists (Base64.urlsafe_b64encode bs). split.
  - rewrite send_email_cases, Hb, Ht, Hsj, Hser. cbv zeta.
    destruct (messages_send w _); reflexivity.
  - apply urlsafe_b64encode_shape, Hoct.
Qed.

(** X21: a [body] argument that is not a string makes sending fail with
    [AttributeError] before the other arguments are looked at: nothing is
    serialised and nothing is sent. *)
Theorem send_rejects_non_string_body (args : gmap str pyval) (s : State)
    (v : pyval) :
  args !! lit "body" = Some v ->
  (forall b, v <> PyStr b) ->
  _send_email w as_bytes service args s = (Raise AttributeError, s).
Proof.
  intros Hb Hv. rewrite send_email_cases, Hb.
  destruct v as [| | |b| |]; try reflexivity.
  destruct (Hv b eq_refl).
Qed.

(** X22: the arguments of a send are read in the order [body], [to],
    [subject], and the first one missing is the one the [KeyError] names,
    the body that was read before [to] and [subject] being a string of
    scalar values, from which the message is built; nothing has been sent
    at that point. *)
Theorem send_names_first_missing_argument (args : gmap str pyval) (s : State) :
  (args !! lit "body" = None ->
   _send_email w as_bytes service args s = (Raise (KeyError (lit "body")), s))
  /\ (forall b,
        args !! lit "body" = Some (PyStr b) ->
        Forall Utf8.scalar b ->
        args !! lit "to" = None ->
        _send_email w as_bytes service args s = (Raise (KeyError (lit "to")), s))
  /\ (forall b t,
        args !! lit "body" = Some (PyStr b) ->
        Forall Utf8.scalar b ->
        args !! lit "to" = Some t ->
        args !! lit "subject" = None ->
        _send_email w as_bytes service args s
        = (Raise (KeyError (lit "subject")), s)).
Proof.
  repeat split.
  - intros Hb. rewrite send_email_cases, Hb. reflexivity.
  - intros b Hb _ Ht. rewrite send_email_cases, Hb, Ht. reflexivity.
  - intros b t Hb _ Ht Hsj. rewrite send_email_cases, Hb, Ht, Hsj. reflexivity.
Qed.

End SendEdges.

Lemma send_raw_is_urlsafe_witness :
  exists raw,
    snd (_send_email Scenario.world Scenario.serialise Scenario.service
           {[ lit "to" := PyStr (lit "bob@example.com");
              lit "subject" := PyStr (lit "Hi?");
              lit "body" := PyStr (lit "~~~ see you >>> noon ???") ]}
           Scenario.logged_in)
    = mkState (fs Scenario.logged_in)
        (trace Scenario.logged_in ++ [MessagesSend raw])
    /\ forallb urlsafe_char raw = true
    /\ exists k, length raw = 4 * k.
Proof.
  apply (send_raw_is_urlsafe Scenario.world Scenario.serialise
           Scenario.service _ Scenario.logged_in
           (lit "~~~ see you >>> noon ???")
           (PyStr (lit "bob@example.com")) (PyStr (lit "Hi?"))
           (lit "bob@example.com" ++ nl ++ lit "Hi?" ++ nl ++ nl
            ++ lit "~~~ see you >>> noon ???")).
  - reflexivity.
  - reflexivity.
  - reflexivity.
  - reflexivity.
  - vm_compute. repeat constructor.
Defined.

Lemma send_rejects_non_string_body_witness :
  _send_email Scenario.world Scenario.serialise Scenario.service
    {[ lit "subject" := PyStr (lit "Hi"); lit "body" := PyInt 5 ]}
    Scenario.logged_in
  = (Raise AttributeError, Scenario.logged_in).
Proof.
  refine (send_rejects_non_string_body Scenario.world Scenario.serialise
            Scenario.service _ Scenario.logged_in (PyInt 5) _ _).
  - reflexivity.
  - intros b Hb. discriminate Hb.
Defined.

Lemma send_names_first_missing_argument_witness :
  _send_email Scenario.world Scenario.serialise Scenario.service
    {[ lit "subject" := PyStr (lit "Hi") ]} Scenario.logged_in
  = (Raise (KeyError (lit "body")), Scenario.logged_in)
  /\ _send_email Scenario.world Scenario.serialise Scenario.service
       {[ lit "body" := PyStr (lit "text") ]} Scenario.logged_in
     = (Raise (KeyError (lit "to")), Scenario.logged_in).
Proof.
  split.
  - apply (proj1 (send_names_first_missing_argument Scenario.world
                    Scenario.serialise Scenario.service
                    {[ lit "subject" := PyStr (lit "Hi") ]} Scenario.logged_in)).
    reflexivity.
  - apply (proj1 (proj2 (send_names_first_missing_argument Scenario.world
                           Scenario.serialise Scenario.service
                           {[ lit "body" := PyStr (lit "text") ]}
                           Scenario.logged_in)) (lit "text")).
    + reflexivity.
    + repeat (apply Forall_cons; split; [vm_compute; tauto|]).
      apply Forall_nil; exact I.
    + reflexivity.
Defined.

(** * Arguments and paths *)

Section Arguments.
Variable w : World.
Variable as_bytes : MIMEText -> result bytes.

(** X23: a tool looks at the arguments its schema declares and at no
    other: two argument mappings that agree on the declared fields give
    the same call, so extra keys are ignored. *)
Theorem call_tool_ignores_undeclared_arguments (tool : Tool)
    (args args' : gmap str pyval) (s : State) :
  tool ∈ list_tools ->
  (forall field, field ∈ field_names tool -> args !! field = args' !! field) ->
  call_tool w as_bytes (name tool) args s
  = call_tool w as_bytes (name tool) args' s.
Proof.
  intros Htool Hagree. unfold call_tool, bind.
  destruct (get_gmail_service w s) as [[service|e] s1]; [|reflexivity].
  unfold list_tools in Htool.
  repeat (apply elem_of_cons in Htool as [->|Htool]); [| | | |inversion Htool];
    cbn [name]; cbn [field_names inputSchema properties fmap list_fmap fst]
      in Hagree.
  - rewrite bool_decide_eq_true_2 by reflexivity.
    unfold _search_emails, getitem, dict_get.
    rewrite <- (Hagree (lit "query")) by apply list_elem_of_here.
    rewrite <- (Hagree (lit "max_results"))
      by apply list_elem_of_further, list_elem_of_here.
    reflexivity.
  - rewrite bool_decide_eq_false_2 by discriminate.
    rewrite bool_decide_eq_true_2 by reflexivity.
    unfold _read_email, getitem.
    rewrite <- (Hagree (lit "message_id")) by apply list_elem_of_here.
    reflexivity.
  - rewrite !bool_decide_eq_false_2 by discriminate.
    rewrite bool_decide_eq_true_2 by reflexivity.
    rewrite !send_email_cases.
    rewrite <- (Hagree (lit "to")) by apply list_elem_of_here.
    rewrite <- (Hagree (lit "subject"))
      by apply list_elem_of_further, list_elem_of_here.
    rewrite <- (Hagree (lit "body"))
      by (do 2 apply list_elem_of_further; apply list_elem_of_here).
    reflexivity.
  - rewrite !bool_decide_eq_false_2 by discriminate.
    rewrite bool_decide_eq_true_2 by reflexivity. reflexivity.
Qed.

Lemma session_paths (s : State) :
  exists evs,
    trace (snd (get_gmail_service w s)) = trace s ++ evs
    /\ Forall (fun e => forall p, event_path e = Some p ->
                        p = token_path w \/ p = credentials_path w) evs.
Proof.
  session_cases w s; rewrite <- ?app_assoc; cbn [app];
    eexists; (split; [reflexivity|]);
    repeat (apply Forall_cons; split;
            [ intros p Hp; cbn [event_path] in Hp;
              first [ discriminate Hp
                    | injection Hp as <-; first [left; reflexivity
                                                | right; reflexivity] ]
            | ]);
    apply Forall_nil; exact I.
Qed.

(** X24: the only files a tool call looks at or writes are the token file
    and the client-secrets file, at the paths the environment variables
    [GMAIL_TOKEN_PATH] and [GMAIL_CREDENTIALS_PATH] give, or [token.json]
    and [credentials.json] when they are not set. *)
Theorem call_tool_touches_configured_paths_only (name : str)
    (args : gmap str pyval) (s : State) :
  exists evs,
    trace (snd (call_tool w as_bytes name args s)) = trace s ++ evs
    /\ forall e p,
         e ∈ evs -> event_path e = Some p ->
         p = default (lit "token.json") (environ w !! lit "GMAIL_TOKEN_PATH")
         \/ p = default (lit "credentials.json")
                  (environ w !! lit "GMAIL_CREDENTIALS_PATH").
Proof.
  destruct (call_tool_after_session w as_bytes name args s)
    as (mail & Htr & Hmail & _).
  destruct (session_paths s) as (evs & Hs & Hpaths).
  exists (evs ++ mail). split; [rewrite Htr, Hs, app_assoc; reflexivity|].
  intros e p Hin Hp. apply elem_of_app in Hin as [Hin|Hin].
  - rewrite Forall_forall in Hpaths. exact (Hpaths e Hin p Hp).
  - rewrite forallb_forall in Hmail.
    apply list_elem_of_In in Hin. specialize (Hmail e Hin).
    destruct e; cbn in Hmail, Hp; discriminate.
Qed.

End Arguments.

Lemma call_tool_ignores_undeclared_arguments_witness :
  call_tool Scenario.world Scenario.serialise (lit "gmail_read")
    {[ lit "message_id" := PyStr (lit "m1"); lit "format" := PyStr (lit "raw") ]}
    Scenario.logged_in
  = call_tool Scenario.world Scenario.serialise (lit "gmail_read")
      {[ lit "message_id" := PyStr (lit "m1") ]} Scenario.logged_in.
Proof.
  apply (call_tool_ignores_undeclared_arguments Scenario.world
           Scenario.serialise
           (mkTool (lit "gmail_read")
              (lit "Read the full content of a specific email by its ID")
              (mkInputSchema (lit "object")
                 [ (lit "message_id",
                    mkProperty (lit "string")
                      (lit "The ID of the email message to read") None) ]
                 (Some [lit "message_id"])))).
  - apply list_elem_of_further, list_elem_of_here.
  - intros field Hfield. apply list_elem_of_singleton in Hfield as ->.
    reflexivity.
Defined.

Lemma send_at_most_once_witness :
  exists evs,
    snd (_send_email Scenario.world_down Scenario.serialise Scenario.service
           {[ lit "to" := PyStr (lit "bob@example.com");
              lit "subject" := PyStr (lit "Hi");
              lit "body" := PyStr (lit "See you at noon.") ]}
           Scenario.logged_in)
    = mkState (fs Scenario.logged_in) (trace Scenario.logged_in ++ evs)
    /\ (evs = [] \/ exists raw, evs = [MessagesSend raw])
    /\ (forall r,
          fst (_send_email Scenario.world_down Scenario.serialise
                 Scenario.service
                 {[ lit "to" := PyStr (lit "bob@example.com");
                    lit "subject" := PyStr (lit "Hi");
                    lit "body" := PyStr (lit "See you at noon.") ]}
                 Scenario.logged_in) = Ok r ->
          exists raw, evs = [MessagesSend raw]).
Proof.
  exact (send_at_most_once Scenario.world_down Scenario.serialise
           Scenario.service
           {[ lit "to" := PyStr (lit "bob@example.com");
              lit "subject" := PyStr (lit "Hi");
              lit "body" := PyStr (lit "See you at noon.") ]}
           Scenario.logged_in).
Defined.

Lemma call_tool_touches_configured_paths_only_witness :
  exists evs,
    trace (snd (call_tool Scenario.world Scenario.serialise
                  (lit "gmail_list_labels") ∅ Scenario.first_run))
    = trace Scenario.first_run ++ evs
    /\ forall e p,
         e ∈ evs -> event_path e = Some p ->
         p = default (lit "token.json")
               (environ Scenario.world !! lit "GMAIL_TOKEN_PATH")
         \/ p = default (lit "credentials.json")
                  (environ Scenario.world !! lit "GMAIL_CREDENTIALS_PATH").
Proof.
  exact (call_tool_touches_configured_paths_only Scenario.world
           Scenario.serialise (lit "gmail_list_labels") ∅ Scenario.first_run).
Defined.
